(** * Package version specifiers of [yunohost.utils.packages]

    A shallow embedding of the classes [Specifier] and [SpecifierSet] of
    [src/yunohost/utils/packages.py], and the properties of their parsing,
    equality, containment, intersection and printing.

    Python values are modelled as follows:
    - byte strings ([basestring]) as [string];
    - the tuple [_spec] of a [Specifier] as a record of a relation and a
      version string;
    - the [frozenset] [_specs] of a [SpecifierSet] as a [gset Specifier];
    - a method call as an [outcome]: a returned value, the returned
      singleton [NotImplemented], or a raised exception;
    - the function [version_compare], which the module calls without
      defining it, as a variable of the section. *)

From Stdlib Require Import ZArith Ascii String.
From stdpp Require Import base decidable countable list sets gmap strings sorting.

Local Open Scope string_scope.
Local Open Scope Z_scope.

(** ** Characters and byte strings *)

Module Str.

(** [\s] of an 8-bit pattern, and the characters removed by [str.strip()]:
    space, [\t], [\n], [\v], [\f], [\r]. *)
Definition isspace (c : ascii) : bool :=
  let n := nat_of_ascii c in
  ((n =? 32) || ((9 <=? n) && (n <=? 13)))%nat.

Definition isdigit (c : ascii) : bool :=
  let n := nat_of_ascii c in ((48 <=? n) && (n <=? 57))%nat.

Definition isalpha (c : ascii) : bool :=
  let n := nat_of_ascii c in
  (((65 <=? n) && (n <=? 90)) || ((97 <=? n) && (n <=? 122)))%nat.

Definition is_empty (s : string) : bool :=
  match s with EmptyString => true | String _ _ => false end.

(** [s.lstrip()] *)
Fixpoint lstrip (s : string) : string :=
  match s with
  | String c s' => if isspace c then lstrip s' else s
  | EmptyString => EmptyString
  end.

(** [s.rstrip()] *)
Fixpoint rstrip (s : string) : string :=
  match s with
  | String c s' =>
      let r := rstrip s' in
      if isspace c && is_empty r then EmptyString else String c r
  | EmptyString => EmptyString
  end.

(** [s.strip()] *)
Definition strip (s : string) : string := rstrip (lstrip s).

(** [s.split(sep)] for a separator of one character: the pieces between
    the separators, empty pieces included; [[""]] for the empty string. *)
Fixpoint split (sep : ascii) (s : string) : list string :=
  match s with
  | EmptyString => [EmptyString]
  | String c s' =>
      if Ascii.eqb c sep then EmptyString :: split sep s'
      else match split sep s' with
           | piece :: pieces => String c piece :: pieces
           | [] => [String c EmptyString]
           end
  end.

(** [sep.join(pieces)] *)
Fixpoint join (sep : string) (pieces : list string) : string :=
  match pieces with
  | [] => EmptyString
  | [piece] => piece
  | piece :: rest => piece ++ sep ++ join sep rest
  end.

(** The order of [sorted] on byte strings: lexicographic on the bytes. *)
Fixpoint leb (s t : string) : bool :=
  match s, t with
  | EmptyString, _ => true
  | String _ _, EmptyString => false
  | String a s', String b t' =>
      let x := nat_of_ascii a in
      let y := nat_of_ascii b in
      if (x <? y)%nat then true
      else if (y <? x)%nat then false
      else leb s' t'
  end.

Definition le (s t : string) : Prop := leb s t = true.

#[global] Instance le_dec : RelDecision le.
Proof. intros s t. unfold le. apply _. Defined.

(** [sorted(pieces)] *)
Definition sorted (pieces : list string) : list string :=
  merge_sort le pieces.

(** No character of [s] satisfies [p]. *)
Fixpoint excludes (p : ascii -> bool) (s : string) : bool :=
  match s with
  | EmptyString => true
  | String c s' => negb (p c) && excludes p s'
  end.

(** [c in chars], for a character [c]. *)
Fixpoint mem (c : ascii) (chars : string) : bool :=
  match chars with
  | EmptyString => false
  | String d chars' => Ascii.eqb c d || mem c chars'
  end.

(** [s.lstrip(chars)] *)
Fixpoint lstrip_chars (chars s : string) : string :=
  match s with
  | String c s' => if mem c chars then lstrip_chars chars s' else s
  | EmptyString => EmptyString
  end.

(** [s.rstrip(chars)] *)
Fixpoint rstrip_chars (chars s : string) : string :=
  match s with
  | String c s' =>
      let r := rstrip_chars chars s' in
      if mem c chars && is_empty r then EmptyString else String c r
  | EmptyString => EmptyString
  end.

(** [s.strip(chars)] *)
Definition strip_chars (chars s : string) : string :=
  rstrip_chars chars (lstrip_chars chars s).

(** [s.split()]: the words between runs of whitespace, none of them
    empty. *)
Fixpoint split_whitespace (s : string) : list string :=
  match s with
  | EmptyString => []
  | String c s' =>
      if isspace c then split_whitespace s'
      else match s' with
           | EmptyString => [String c EmptyString]
           | String d _ =>
               if isspace d then String c EmptyString :: split_whitespace s'
               else match split_whitespace s' with
                    | word :: words => String c word :: words
                    | [] => [String c EmptyString]
                    end
           end
  end.

(** [s.startswith(p)] *)
Fixpoint startswith (p s : string) : bool :=
  match p, s with
  | EmptyString, _ => true
  | String a p', String b s' => Ascii.eqb a b && startswith p' s'
  | String _ _, EmptyString => false
  end.

(** [sub in s], for a string [sub]. *)
Fixpoint contains (sub s : string) : bool :=
  startswith sub s
  || match s with
     | EmptyString => false
     | String _ s' => contains sub s'
     end.

(** [s.replace(old, new)] for a non-empty [old], from left to right: [skip]
    counts the characters of an occurrence of [old] that are still to be
    dropped. *)
Fixpoint replace_from (old new : string) (skip : nat) (s : string) : string :=
  match s with
  | EmptyString => EmptyString
  | String c s' =>
      match skip with
      | S skip' => replace_from old new skip' s'
      | O =>
          if startswith old s
          then new ++ replace_from old new (String.length old - 1) s'
          else String c (replace_from old new 0 s')
      end
  end.

Definition replace (old new s : string) : string := replace_from old new 0 s.

End Str.

(** ** Outcomes of a call *)

Inductive exn : Type :=
| InvalidSpecifier (message : string)
| TypeError.

Inductive outcome (A : Type) : Type :=
| Returns (a : A)
| ReturnsNotImplemented
| Raises (e : exn).

Arguments Returns {A} a.
Arguments ReturnsNotImplemented {A}.
Arguments Raises {A} e.

(** Sequencing: what follows a call runs on its returned value. The module
    never computes with a returned [NotImplemented], it hands it back. *)
#[export] Instance outcome_ret : MRet outcome := fun A a => Returns a.

#[export] Instance outcome_bind : MBind outcome := fun A B k m =>
  match m with
  | Returns a => k a
  | ReturnsNotImplemented => ReturnsNotImplemented
  | Raises e => Raises e
  end.

(** [try: m except InvalidSpecifier: return NotImplemented] *)
Definition except_InvalidSpecifier {A : Type} (m : outcome A) : outcome A :=
  match m with
  | Raises (InvalidSpecifier _) => ReturnsNotImplemented
  | Raises TypeError => m
  | Returns _ => m
  | ReturnsNotImplemented => m
  end.

(** ** Relations and specifiers *)

(** The five relations, named as the values of [Specifier._relations]. *)
Inductive Relation : Type :=
| lower_than
| lower_or_equal_than
| equal
| greater_or_equal_than
| greater_than.

(** The keys of [Specifier._relations]: the text [match.group("relation")]. *)
Definition symbol (r : Relation) : string :=
  match r with
  | lower_than => "<<"
  | lower_or_equal_than => "<="
  | equal => "="
  | greater_or_equal_than => ">="
  | greater_than => ">>"
  end.

#[export] Instance Relation_eq_dec : EqDecision Relation.
Proof. solve_decision. Defined.

Definition Relation_to_nat (r : Relation) : nat :=
  match r with
  | lower_than => 0
  | lower_or_equal_than => 1
  | equal => 2
  | greater_or_equal_than => 3
  | greater_than => 4
  end.

Definition Relation_of_nat (n : nat) : Relation :=
  match n with
  | 0%nat => lower_than
  | 1%nat => lower_or_equal_than
  | 2%nat => equal
  | 3%nat => greater_or_equal_than
  | _ => greater_than
  end.

#[export] Instance Relation_countable : Countable Relation.
Proof.
  refine (inj_countable' Relation_to_nat Relation_of_nat _).
  intros []; reflexivity.
Defined.

(** [Specifier._spec], a pair of the relation and the version. *)
Record Specifier : Type := mkSpecifier {
  relation : Relation;
  version : string;
}.

#[export] Instance Specifier_eq_dec : EqDecision Specifier.
Proof. solve_decision. Defined.

#[export] Instance Specifier_countable : Countable Specifier.
Proof.
  refine (inj_countable' (fun s => (relation s, version s))
                         (fun p => mkSpecifier p.1 p.2) _).
  intros []; reflexivity.
Defined.

(** [SpecifierSet._specs] *)
Abbreviation SpecifierSet := (gset Specifier).

(** A dynamically typed argument of the methods. *)
Inductive pyobj : Type :=
| PStr (s : string)
| PSpecifier (s : Specifier)
| PSpecifierSet (s : SpecifierSet)
| PNone.

(** ** Parsing: [Specifier._regex] *)

Module Regex.

(** [s] without its prefix [p], if it starts with [p]. *)
Fixpoint strip_prefix (p s : string) : option string :=
  match p, s with
  | EmptyString, _ => Some s
  | String a p', String b s' =>
      if Ascii.eqb a b then strip_prefix p' s' else None
  | String _ _, EmptyString => None
  end.

(** The alternatives of the group [relation], in the order of the pattern:
    [(<<|<=|=|>=|>>)]. *)
Definition alternatives : list Relation :=
  [lower_than; lower_or_equal_than; equal; greater_or_equal_than; greater_than].

(** The first alternative that matches at the start of [s], and the rest. *)
Fixpoint first_match (alts : list Relation) (s : string)
  : option (Relation * string) :=
  match alts with
  | [] => None
  | r :: alts' =>
      match strip_prefix (symbol r) s with
      | Some rest => Some (r, rest)
      | None => first_match alts' s
      end
  end.

(** The group [relation] at the start of [s]. No alternative is a prefix of
    another, so at most one matches, and the flag [re.IGNORECASE] changes
    nothing since no alternative has a letter. *)
Definition relation (s : string) : option (Relation * string) :=
  first_match alternatives s.

(** The class [[^,;\s)]]. *)
Definition version_char (c : ascii) : bool :=
  negb (Ascii.eqb c "," || Ascii.eqb c ";" || Str.isspace c || Ascii.eqb c ")").

(** The starred class, greedy: the longest prefix in the class and the
    rest. *)
Fixpoint version (s : string) : string * string :=
  match s with
  | String c s' =>
      if version_char c
      then let '(v, rest) := version s' in (String c v, rest)
      else (EmptyString, s)
  | EmptyString => (EmptyString, EmptyString)
  end.

(** [_regex.search(spec)]: the groups [relation] and [version] of the
    match, if there is one. The pattern, compiled with [re.VERBOSE], is
    [^\s*], a relation, [\s*], a starred run of version characters, [\s*]
    and [$].
    Each starred class is followed by a class disjoint from it (a relation
    starts with no space, a version character is no space), so the greedy
    pass finds the match whenever backtracking would; and [$] before a
    final newline yields the same groups as [\s*] consuming it. *)
Definition search (spec : string) : option (Relation * string) :=
  match relation (Str.lstrip spec) with
  | Some (rel, s) =>
      let '(v, rest) := version (Str.lstrip s) in
      if Str.is_empty (Str.lstrip rest) then Some (rel, v) else None
  | None => None
  end.

(** What the pattern says, without an order of evaluation: the string is
    whitespace, a relation, whitespace, a run of version characters and
    whitespace. *)
Definition spaces (s : string) : Prop :=
  Str.excludes (fun c => negb (Str.isspace c)) s = true.

Definition version_run (s : string) : Prop :=
  Str.excludes (fun c => negb (version_char c)) s = true.

Definition matches (spec : string) (rel : Relation) (v : string) : Prop :=
  exists ws1 ws2 ws3,
    spaces ws1 /\ spaces ws2 /\ version_run v /\ spaces ws3
    /\ spec = ws1 ++ symbol rel ++ ws2 ++ v ++ ws3.

End Regex.

(** [Specifier.__init__(spec)] for a string [spec]. The groups are stripped
    as in the source; the relation keeps its five possible texts. *)
Definition Specifier_of_string (spec : string) : outcome Specifier :=
  match Regex.search spec with
  | None => Raises (InvalidSpecifier ("Invalid specifier: '" ++ spec ++ "'"))
  | Some (rel, v) => Returns (mkSpecifier rel (Str.strip v))
  end.

(** [Specifier.__init__(spec)]: from a string, or a copy of a [Specifier].
    For any other argument [__init__] returns [NotImplemented], which Python
    refuses with a [TypeError]; no method of the module passes one. *)
Definition Specifier_init (spec : pyobj) : outcome Specifier :=
  match spec with
  | PStr s => Specifier_of_string s
  | PSpecifier s => Returns s
  | _ => Raises TypeError
  end.

(** [Specifier.__str__] *)
Definition Specifier_str (self : Specifier) : string :=
  symbol (relation self) ++ version self.

(** ** The methods of [Specifier] and [SpecifierSet] *)

(** The argument of [SpecifierSet.__init__]: a string, or an iterable of
    strings and specifiers. *)
Inductive specifiers_arg : Type :=
| OfString (s : string)
| OfItems (items : list pyobj).

(** The loop [for specifier in specifiers: parsed.add(Specifier(specifier))];
    the first failing item ends it. *)
Fixpoint parse_each (specifiers : list pyobj) (parsed : SpecifierSet)
  : outcome SpecifierSet :=
  match specifiers with
  | [] => mret parsed
  | specifier :: rest =>
      s ← Specifier_init specifier;
      parse_each rest (parsed ∪ {[ s ]})
  end.

(** The pieces of a string argument:
    [[s.strip() for s in specifiers.split(",") if s.strip()]]. *)
Definition pieces (specifiers : string) : list string :=
  map Str.strip
      (List.filter (fun s => negb (Str.is_empty (Str.strip s)))
                   (Str.split "," specifiers)).

(** [SpecifierSet.__init__(specifiers)] *)
Definition SpecifierSet_init (specifiers : specifiers_arg) : outcome SpecifierSet :=
  let specifiers :=
    match specifiers with
    | OfString s => map PStr (pieces s)
    | OfItems items => items
    end in
  parse_each specifiers ∅.

(** [SpecifierSet.__str__] *)
Definition SpecifierSet_str (self : SpecifierSet) : string :=
  Str.join "," (Str.sorted (map Specifier_str (elements self))).

(** [SpecifierSet.__len__] *)
Definition SpecifierSet_len (self : SpecifierSet) : nat := size self.

(** [Specifier.__eq__(other)] *)
Definition Specifier_eq (self : Specifier) (other : pyobj) : outcome bool :=
  other ← match other with
          | PStr s => except_InvalidSpecifier (Specifier_init (PStr s))
          | PSpecifier o => mret o
          | _ => ReturnsNotImplemented
          end;
  mret (bool_decide (self = other)).

(** [SpecifierSet.__eq__(other)] *)
Definition SpecifierSet_eq (self : SpecifierSet) (other : pyobj) : outcome bool :=
  other ← match other with
          | PStr s => SpecifierSet_init (OfString s)
          | PSpecifier o => SpecifierSet_init (OfString (Specifier_str o))
          | PSpecifierSet o => mret o
          | _ => ReturnsNotImplemented
          end;
  mret (bool_decide (self = other)).


(** [s[i]] where the index is in range. *)
Definition char_at (s : string) (i : nat) : option ascii := String.get i s.

Section Algebra.

(** The comparison of two version strings that the module calls:
    negative, zero or positive. *)
Variable version_compare : string -> string -> Z.

Definition _compare_lower_than (version spec : string) : bool :=
  version_compare version spec <? 0.

Definition _compare_lower_or_equal_than (version spec : string) : bool :=
  version_compare version spec <=? 0.

Definition _compare_equal (version spec : string) : bool :=
  version_compare version spec =? 0.

Definition _compare_greater_or_equal_than (version spec : string) : bool :=
  version_compare version spec >=? 0.

Definition _compare_greater_than (version spec : string) : bool :=
  version_compare version spec >? 0.

(** [Specifier._get_relation(op)] through the table [_relations]. *)
Definition _get_relation (op : Relation) : string -> string -> bool :=
  match op with
  | lower_than => _compare_lower_than
  | lower_or_equal_than => _compare_lower_or_equal_than
  | equal => _compare_equal
  | greater_or_equal_than => _compare_greater_or_equal_than
  | greater_than => _compare_greater_than
  end.

(** [Specifier.contains(item)], also [item in self]. *)
Definition Specifier_contains (self : Specifier) (item : string) : bool :=
  _get_relation (relation self) item (version self).

(** [SpecifierSet.contains(item)], also [item in self]. *)
Definition SpecifierSet_contains (self : SpecifierSet) (item : string) : bool :=
  forallb (fun s => Specifier_contains s item) (elements self).

(** The branches of [Specifier.intersection] on two specifiers: the list
    [result], or [None]. The index [rel1[1]] is read only where [rel1] is
    not ["="], so it is in range. *)
Definition intersection_result (self other : Specifier)
  : option (list Specifier) :=
  let rel1 := symbol (relation self) in
  let v1 := version self in
  let rel2 := symbol (relation other) in
  let v2 := version other in
  if bool_decide (other = self) then Some [other]
  else if bool_decide (rel1 = "=") then
    if Specifier_contains other v1 then Some [self] else None
  else if bool_decide (rel2 = "=") then
    if Specifier_contains self v2 then Some [other] else None
  else if bool_decide (v1 = v2) then
    Some [if bool_decide (char_at rel1 1 = Some "="%char) then other else self]
  else if Specifier_contains self v2 || Specifier_contains other v1 then
    let is_self_greater := version_compare v1 v2 >? 0 in
    if bool_decide (char_at rel1 0 = char_at rel2 0) then
      if bool_decide (char_at rel1 0 = Some ">"%char) then
        Some [if is_self_greater then self else other]
      else
        Some [if is_self_greater then other else self]
    else
      Some [self; other]
  else Some [].

(** [Specifier.intersection(other)], also [self & other]. *)
Definition Specifier_intersection (self : Specifier) (other : pyobj)
  : outcome SpecifierSet :=
  other ← match other with
          | PStr s => except_InvalidSpecifier (Specifier_init (PStr s))
          | PSpecifier o => mret o
          | _ => ReturnsNotImplemented
          end;
  SpecifierSet_init
    match intersection_result self other with
    | Some result => OfItems (map PSpecifier result)
    | None => OfString ""
    end.

(** [Specifier.union(other)], also [self | other]. *)
Definition Specifier_union (self : Specifier) (other : pyobj)
  : outcome SpecifierSet :=
  other ← match other with
          | PStr s => except_InvalidSpecifier (Specifier_init (PStr s))
          | PSpecifier o => mret o
          | _ => ReturnsNotImplemented
          end;
  SpecifierSet_init (OfItems [PSpecifier self; PSpecifier other]).

(** The inner loop of [SpecifierSet.intersection],
    [for spec in intersection], on the rest of [intersection]: an empty
    [inter] clears [parsed] and leaves the loop. *)
Fixpoint intersect_each (specifier : Specifier) (intersection : list Specifier)
    (parsed : SpecifierSet) : outcome SpecifierSet :=
  match intersection with
  | [] => mret parsed
  | spec :: rest =>
      inter ← Specifier_intersection spec (PSpecifier specifier);
      if (SpecifierSet_len inter =? 0)%nat then mret ∅
      else intersect_each specifier rest (parsed ∪ inter)
  end.

(** The outer loop, [for specifier in specifiers], on the rest of
    [specifiers]; it is left as soon as [intersection] is empty. The set
    [parsed] that becomes [intersection] is enumerated by [elements]. *)
Fixpoint intersect_all (specifiers : list Specifier)
    (intersection : list Specifier) : outcome (list Specifier) :=
  match specifiers with
  | [] => mret intersection
  | specifier :: rest =>
      parsed ← intersect_each specifier intersection ∅;
      let intersection := elements parsed in
      match intersection with
      | [] => mret intersection
      | _ :: _ => intersect_all rest intersection
      end
  end.

(** The body of [SpecifierSet.intersection] once both operands are sets,
    when Python enumerates the set [specifiers] in the order of the list
    [specifiers]: [pop()] takes its first element and the loop runs over
    the others. *)
Definition intersection_in_order (specifiers : list Specifier)
  : outcome SpecifierSet :=
  match specifiers with
  | [] => SpecifierSet_init (OfItems [])
  | seed :: specifiers =>
      intersection ← intersect_all specifiers [seed];
      SpecifierSet_init (OfItems (map PSpecifier intersection))
  end.

(** [SpecifierSet.intersection(other)], also [self & other], for one
    enumeration of the pooled set, that of [elements]. Python enumerates the
    set in the order of its hash table, which the source does not fix, and
    the result may depend on it: what holds for every enumeration is stated
    on [intersection_in_order]. *)
Definition SpecifierSet_intersection (self : SpecifierSet) (other : pyobj)
  : outcome SpecifierSet :=
  other ← match other with
          | PStr s => SpecifierSet_init (OfString s)
          | PSpecifierSet o => mret o
          | _ => ReturnsNotImplemented
          end;
  intersection_in_order (elements (self ∪ other)).

(** [SpecifierSet.union(other)], also [self | other]. *)
Definition SpecifierSet_union (self : SpecifierSet) (other : pyobj)
  : outcome SpecifierSet :=
  other ← match other with
          | PStr s => SpecifierSet_init (OfString s)
          | PSpecifierSet o => mret o
          | _ => ReturnsNotImplemented
          end;
  specifiers ← SpecifierSet_init (OfItems []);
  mret (self ∪ other).

End Algebra.

(** ** The other comparisons *)

(** The returned value of a method mapped by [f]; a returned
    [NotImplemented] and an exception are handed on. *)
Definition outcome_map {A B : Type} (f : A -> B) (m : outcome A) : outcome B :=
  x ← m; mret (f x).

(** [Specifier.__ne__(other)] *)
Definition Specifier_ne (self : Specifier) (other : pyobj) : outcome bool :=
  other ← match other with
          | PStr s => except_InvalidSpecifier (Specifier_init (PStr s))
          | PSpecifier o => mret o
          | _ => ReturnsNotImplemented
          end;
  mret (negb (bool_decide (self = other))).

(** [SpecifierSet.__ne__(other)] *)
Definition SpecifierSet_ne (self : SpecifierSet) (other : pyobj) : outcome bool :=
  other ← match other with
          | PStr s => SpecifierSet_init (OfString s)
          | PSpecifier o => SpecifierSet_init (OfString (Specifier_str o))
          | PSpecifierSet o => mret o
          | _ => ReturnsNotImplemented
          end;
  mret (negb (bool_decide (self = other))).

(** ** Packages and the state of [dpkg] *)

(** [YUNOHOST_PACKAGES] *)
Definition YUNOHOST_PACKAGES : list string :=
  ["yunohost"; "yunohost-admin"; "moulinette"; "ssowat"].

(** What the helpers read from the machine: [os.path.exists],
    [os.path.isdir], [os.listdir], the text returned by [check_output] for
    a command that succeeds, [glob] and the lines of a file as [readlines]
    gives them. *)
Record Host : Type := mkHost {
  path_exists : string -> bool;
  isdir : string -> bool;
  listdir : string -> list string;
  check_output : string -> string;
  glob : string -> list string;
  readlines : string -> list string;
}.

(** The value of an indexing [l[i]]: the item, or [IndexError]. *)
Inductive indexed (A : Type) : Type :=
| Item (a : A)
| IndexError.

Arguments Item {A} a.
Arguments IndexError {A}.

(** [l[i]] for a non-negative [i]. *)
Definition item {A : Type} (l : list A) (i : nat) : indexed A :=
  match l !! i with
  | Some a => Item a
  | None => IndexError
  end.

Definition indexed_bind {A B : Type} (m : indexed A) (k : A -> indexed B)
  : indexed B :=
  match m with
  | Item a => k a
  | IndexError => IndexError
  end.

(** [get_ynh_package_version(package)]: the dictionary with the keys
    ["version"] and ["repo"]. *)
Definition get_ynh_package_version (host : Host) (package : string)
  : indexed (gmap string string) :=
  let changelog := "/usr/share/doc/" ++ package ++ "/changelog.gz" in
  let cmd := "gzip -cd " ++ changelog ++ " | head -n1" in
  if negb (path_exists host changelog)
  then Item {[ "version" := "?"; "repo" := "?" ]}
  else
    let out := Str.split_whitespace (check_output host cmd) in
    indexed_bind (item out 1) (fun out1 =>
    indexed_bind (item out 2) (fun out2 =>
    Item {[ "version" := Str.strip_chars "()" out1;
            "repo" := Str.strip_chars ";" out2 ]})).

(** The loop of [ynh_packages_version] on the rest of the packages; the
    [OrderedDict] is the list of its items in the order of insertion, and no
    package comes twice. *)
Fixpoint packages_versions (host : Host) (packages : list string)
  : indexed (list (string * gmap string string)) :=
  match packages with
  | [] => Item []
  | package :: rest =>
      indexed_bind (get_ynh_package_version host package) (fun v =>
      indexed_bind (packages_versions host rest) (fun items =>
      Item ((package, v) :: items)))
  end.

(** [ynh_packages_version()] *)
Definition ynh_packages_version (host : Host)
  : indexed (list (string * gmap string string)) :=
  packages_versions host YUNOHOST_PACKAGES.

(** The longest prefix of digits of [s], and the rest. *)
Fixpoint span_digits (s : string) : string * string :=
  match s with
  | String c s' =>
      if Str.isdigit c
      then let '(d, rest) := span_digits s' in (String c d, rest)
      else (EmptyString, s)
  | EmptyString => (EmptyString, EmptyString)
  end.

(** [re.match("^[0-9]+$", f)] as a truth value: digits, at least one, up to
    the end of [f] or to a newline that ends [f]. Giving digits back cannot
    help [$], which a digit does not satisfy. *)
Definition match_number (f : string) : bool :=
  let '(d, rest) := span_digits f in
  negb (Str.is_empty d)
  && (bool_decide (rest = EmptyString)
      || bool_decide (rest = String "010" EmptyString)).

(** [dpkg_is_broken()] *)
Definition dpkg_is_broken (host : Host) : bool :=
  if negb (isdir host "/var/lib/dpkg/updates/") then false
  else existsb match_number (listdir host "/var/lib/dpkg/updates/").

(** What the generator [_list_upgradable_apt_packages] does for a line: it
    yields a dictionary or logs a warning. *)
Inductive event : Type :=
| Yield (d : gmap string string)
| Warning (message : string).

(** [[l.strip() for l in raw.split("\n") if l.strip()]] *)
Definition stripped_lines (raw : string) : list string :=
  map Str.strip
      (List.filter (fun l => negb (Str.is_empty (Str.strip l)))
                   (Str.split "010" raw)).

(** The body of the loop of [_list_upgradable_apt_packages] for one
    line. *)
Definition upgradable_line (line : string) : indexed (list event) :=
  if Str.contains "apt does not have a stable CLI interface" line
     || Str.contains "Listing..." line
  then Item []
  else
    let line := Str.split_whitespace line in
    if negb (length line =? 6)%nat
    then Item [Warning ("Failed to parse this line : " ++ Str.join " " line)]
    else
      indexed_bind (item line 0) (fun line0 =>
      indexed_bind (item (Str.split "/" line0) 0) (fun name =>
      indexed_bind (item line 1) (fun line1 =>
      indexed_bind (item line 5) (fun line5 =>
      Item [Yield {[ "name" := name;
                     "new_version" := line1;
                     "current_version" := Str.strip_chars "]" line5 ]}])))).

Fixpoint upgradable_lines (lines : list string) : indexed (list event) :=
  match lines with
  | [] => Item []
  | line :: rest =>
      indexed_bind (upgradable_line line) (fun events =>
      indexed_bind (upgradable_lines rest) (fun events' =>
      Item (events ++ events')%list))
  end.

(** [_list_upgradable_apt_packages()], run to its end: what it yields and
    logs, in order. *)
Definition _list_upgradable_apt_packages (host : Host) : indexed (list event) :=
  let upgradable_raw := check_output host "LC_ALL=C apt list --upgradable" in
  upgradable_lines (stripped_lines upgradable_raw).

(** The inner loop of [_dump_sources_list] over the lines of one file. *)
Definition dump_file (filename : string) (lines : list string) : list string :=
  flat_map
    (fun line =>
       if Str.startswith "#" line || Str.is_empty (Str.strip line) then []
       else [Str.replace "/etc/apt/" "" filename ++ ":" ++ Str.strip line])
    lines.

(** [_dump_sources_list()], run to its end: what it yields, in order. *)
Definition _dump_sources_list (host : Host) : list string :=
  let filenames :=
    (glob host "/etc/apt/sources.list"
     ++ glob host "/etc/apt/sources.list.d/*")%list in
  flat_map (fun filename => dump_file filename (readlines host filename))
           filenames.

(** ** A comparison of Debian versions *)

Module Debian.

(** Modelled from the spec: the weight of a character outside the digit
    runs of the external comparator. Letters weigh their code, [~] is below
    everything, the end of a run is [0], any other character is above the
    letters. *)
Definition order (c : ascii) : Z :=
  if Str.isdigit c then 0
  else if Str.isalpha c then Z.of_nat (nat_of_ascii c)
  else if Ascii.eqb c "~" then -1
  else Z.of_nat (nat_of_ascii c) + 256.

(** Modelled from the spec: a part of a version cut into the segments the
    external comparator compares, each a run of non-digits followed by a
    run of digits; either run may be empty. *)
Fixpoint segments (s : string) : list (string * string) :=
  match s with
  | EmptyString => []
  | String c s' =>
      let rest := segments s' in
      if Str.isdigit c then
        match rest with
        | (EmptyString, d) :: rest' => (EmptyString, String c d) :: rest'
        | _ => (EmptyString, String c EmptyString) :: rest
        end
      else
        match rest with
        | (n, d) :: rest' => (String c n, d) :: rest'
        | [] => [(String c EmptyString, EmptyString)]
        end
  end.

(** Modelled from the spec: the external comparator on two runs of
    non-digits, character by character. *)
Fixpoint compare_letters (a b : string) : Z :=
  match a, b with
  | EmptyString, EmptyString => 0
  | String x _, EmptyString => Z.sgn (order x)
  | EmptyString, String y _ => Z.sgn (- order y)
  | String x a', String y b' =>
      if order x =? order y then compare_letters a' b'
      else Z.sgn (order x - order y)
  end.

(** Modelled from the spec: the number written by a run of digits, for
    the external comparator. *)
Definition number (digits : string) : Z :=
  fold_left (fun n c => 10 * n + (Z.of_nat (nat_of_ascii c) - 48))
            (list_ascii_of_string digits) 0.

(** Modelled from the spec: the external comparator on two runs of
    digits, as numbers. *)
Definition compare_numbers (a b : string) : Z :=
  Z.sgn (number a - number b).

(** Modelled from the spec: the external comparator on two segments,
    first the non-digits, then the digits. *)
Definition compare_segment (a b : string * string) : Z :=
  let c := compare_letters a.1 b.1 in
  if c =? 0 then compare_numbers a.2 b.2 else c.

(** Modelled from the spec: the external comparator on no segment at all
    against the segments of [b]. *)
Fixpoint compare_to_end (b : list (string * string)) : Z :=
  match b with
  | [] => 0
  | y :: b' =>
      let c := compare_segment (EmptyString, EmptyString) y in
      if c =? 0 then compare_to_end b' else c
  end.

(** Modelled from the spec: the external comparator on two lists of
    segments; the first segments that differ decide, and the shorter list
    goes on with empty segments. *)
Fixpoint compare_segments (a b : list (string * string)) : Z :=
  match a with
  | [] => compare_to_end b
  | x :: a' =>
      let y := hd (EmptyString, EmptyString) b in
      let c := compare_segment x y in
      if c =? 0 then compare_segments a' (tl b) else c
  end.

(** Modelled from the spec: the external comparator on two upstream parts
    or two revisions. *)
Definition compare_part (a b : string) : Z :=
  compare_segments (segments a) (segments b).

(** Modelled from the spec: the epoch of a version of the external
    comparator, before the first colon, and what follows it. *)
Fixpoint split_epoch (s : string) : option (string * string) :=
  match s with
  | EmptyString => None
  | String c s' =>
      if Ascii.eqb c ":" then Some (EmptyString, s')
      else match split_epoch s' with
           | Some (e, rest) => Some (String c e, rest)
           | None => None
           end
  end.

(** Modelled from the spec: the upstream part of a version of the external
    comparator, and the revision after the last hyphen. *)
Fixpoint split_revision (s : string) : string * option string :=
  match s with
  | EmptyString => (EmptyString, None)
  | String c s' =>
      match split_revision s' with
      | (u, Some r) => (String c u, Some r)
      | (u, None) =>
          if Ascii.eqb c "-" then (EmptyString, Some u)
          else (String c u, None)
      end
  end.

(** Modelled from the spec: the epoch, the upstream part and the revision
    of a version of the external comparator; a missing epoch or revision
    is empty. *)
Definition parts (s : string) : string * string * string :=
  let '(epoch, rest) := default (EmptyString, s) (split_epoch s) in
  let '(upstream, revision) := split_revision rest in
  (epoch, upstream, default EmptyString revision).

(** Modelled from the spec: the function [version_compare], which
    [packages.py] calls and neither defines nor imports, is the external
    version comparator: an order on version strings by epoch, then
    upstream part, then revision, where digit runs compare as numbers,
    letter runs by their letters, and [~] sorts before everything, the
    end of a part included. The result is [-1], [0] or [1]. *)
Definition version_compare (a b : string) : Z :=
  let '(e1, u1, r1) := parts a in
  let '(e2, u2, r2) := parts b in
  let c := compare_numbers e1 e2 in
  if negb (c =? 0) then c
  else let c := compare_part u1 u2 in
       if negb (c =? 0) then c
       else compare_part r1 r2.

End Debian.


(** ** Notions of the specification *)

(** The inclusive flavour of a bound, [<=] and [>=], and the strict one,
    [<<] and [>>]. *)
Definition inclusive (r : Relation) : bool :=
  match r with
  | lower_or_equal_than | greater_or_equal_than => true
  | _ => false
  end.

Definition strict (r : Relation) : bool :=
  match r with
  | lower_than | greater_than => true
  | _ => false
  end.

(** The direction a bound points to: [<<] and [<=] are upper bounds, [>=]
    and [>>] lower bounds. *)
Inductive direction : Type := Lower | Upper.

#[export] Instance direction_eq_dec : EqDecision direction.
Proof. solve_decision. Defined.

Definition points (r : Relation) : option direction :=
  match r with
  | lower_than | lower_or_equal_than => Some Upper
  | greater_or_equal_than | greater_than => Some Lower
  | equal => None
  end.

(** The versions of a specifier can come out of the parser: no comma,
    semicolon, whitespace or closing parenthesis. *)
Definition well_formed (s : Specifier) : Prop :=
  Regex.version_run (version s).

(** A string of whitespace and commas only. *)
Definition blank (s : string) : Prop :=
  Str.excludes (fun c => negb (Str.isspace c || Ascii.eqb c ",")) s = true.

(** The message of [InvalidSpecifier] for the string [spec]. *)
Definition invalid (spec : string) : exn :=
  InvalidSpecifier ("Invalid specifier: '" ++ spec ++ "'").

(** A run of digits. *)
Definition digits (s : string) : Prop :=
  Str.excludes (fun c => negb (Str.isdigit c)) s = true.

(** A file name made of digits, at least one, possibly followed by one
    newline. *)
Definition numbered (f : string) : Prop :=
  exists d,
    d ≠ EmptyString /\ digits d
    /\ (f = d \/ f = d ++ String "010" EmptyString).

(** A word: not empty, without whitespace. *)
Definition word (w : string) : Prop :=
  w ≠ EmptyString /\ Str.excludes Str.isspace w = true.

(** A string made of characters of [chars] only, and one without any. *)
Definition within (chars s : string) : Prop :=
  Str.excludes (fun c => negb (Str.mem c chars)) s = true.

Definition without (chars s : string) : Prop :=
  Str.excludes (fun c => Str.mem c chars) s = true.

(** What [_list_upgradable_apt_packages] may yield: a dictionary with a
    name without slash or whitespace, a new version that is a word, and a
    current version without whitespace. *)
Definition upgradable_entry (d : gmap string string) : Prop :=
  exists name new_version current_version,
    d = {[ "name" := name;
           "new_version" := new_version;
           "current_version" := current_version ]}
    /\ Str.excludes (Ascii.eqb "/") name = true
    /\ Str.excludes Str.isspace name = true
    /\ word new_version
    /\ Str.excludes Str.isspace current_version = true.

(** What it may log: the words of a line that has not six of them. *)
Definition upgradable_warning (message : string) : Prop :=
  exists words,
    length words ≠ 6%nat
    /\ Forall word words
    /\ message = "Failed to parse this line : " ++ Str.join " " words.

Definition upgradable_event (e : event) : Prop :=
  match e with
  | Yield d => upgradable_entry d
  | Warning message => upgradable_warning message
  end.

(** The comparison orders the versions of [vs]: its sign is antisymmetric
    and "at most" is transitive on them. *)
Definition ordered_on (cmp : string -> string -> Z) (vs : list string) : Prop :=
  (forall a b, a ∈ vs -> b ∈ vs -> (cmp a b > 0 <-> cmp b a < 0))
  /\ (forall a b c, a ∈ vs -> b ∈ vs -> c ∈ vs ->
        cmp a b <= 0 -> cmp b c <= 0 -> cmp a c <= 0).

(** The five comparisons of [Specifier], unfolded. *)
Ltac unfold_compare :=
  unfold _compare_lower_than, _compare_lower_or_equal_than, _compare_equal,
    _compare_greater_or_equal_than, _compare_greater_than.

(** * Properties *)

(** ** Construction from specifiers *)

Lemma parse_each_specifiers (l : list Specifier) (parsed : SpecifierSet) :
  parse_each (map PSpecifier l) parsed = Returns (parsed ∪ list_to_set l).
Proof.
  revert parsed; induction l as [|s l IH]; intros parsed; simpl.
  - f_equal. symmetry. apply (right_id_L ∅ (∪)).
  - rewrite IH. f_equal. symmetry. apply (assoc_L (∪)).
Qed.

Lemma SpecifierSet_init_specifiers (l : list Specifier) :
  SpecifierSet_init (OfItems (map PSpecifier l)) = Returns (list_to_set l).
Proof.
  unfold SpecifierSet_init. rewrite parse_each_specifiers.
  f_equal. apply (left_id_L ∅ (∪)).
Qed.

Lemma SpecifierSet_init_empty_string :
  SpecifierSet_init (OfString "") = Returns ∅.
Proof. reflexivity. Qed.

(** ** Strings *)

Lemma excludes_weaken (p q : ascii -> bool) (s : string) :
  (forall c, q c = true -> p c = true) ->
  Str.excludes p s = true ->
  Str.excludes q s = true.
Proof.
  intros Hpq. induction s as [|c s IH]; simpl; [reflexivity|].
  rewrite !andb_true_iff, !negb_true_iff. intros [Hc Hs]. split.
  - destruct (q c) eqn:E; [|reflexivity]. apply Hpq in E. congruence.
  - apply IH, Hs.
Qed.

Lemma excludes_app (p : ascii -> bool) (s t : string) :
  Str.excludes p (s ++ t) = Str.excludes p s && Str.excludes p t.
Proof.
  induction s as [|c s IH]; simpl; [reflexivity|].
  rewrite IH. apply andb_assoc.
Qed.

Lemma lstrip_no_space (s : string) :
  Str.excludes Str.isspace s = true -> Str.lstrip s = s.
Proof.
  destruct s as [|c s]; simpl; [reflexivity|].
  rewrite andb_true_iff, negb_true_iff. intros [-> _]. reflexivity.
Qed.

Lemma rstrip_no_space (s : string) :
  Str.excludes Str.isspace s = true -> Str.rstrip s = s.
Proof.
  induction s as [|c s IH]; simpl; [reflexivity|].
  rewrite andb_true_iff, negb_true_iff. intros [-> Hs].
  rewrite IH by assumption. reflexivity.
Qed.

Lemma strip_no_space (s : string) :
  Str.excludes Str.isspace s = true -> Str.strip s = s.
Proof.
  intros H. unfold Str.strip.
  rewrite lstrip_no_space by assumption. apply rstrip_no_space, H.
Qed.

Lemma split_cons (sep : ascii) (s : string) :
  exists piece rest, Str.split sep s = piece :: rest.
Proof.
  induction s as [|c s (piece & rest & IH)]; simpl.
  - eexists _, _; reflexivity.
  - destruct (Ascii.eqb c sep); [eexists _, _; reflexivity|].
    rewrite IH. eexists _, _; reflexivity.
Qed.

(** A piece without the separator, followed by the separator: [split] cuts
    there. *)
Lemma split_app (sep : ascii) (piece s : string) :
  Str.excludes (Ascii.eqb sep) piece = true ->
  Str.split sep (piece ++ String sep s) = piece :: Str.split sep s.
Proof.
  induction piece as [|c piece IH]; simpl.
  - intros _. rewrite Ascii.eqb_refl. reflexivity.
  - rewrite andb_true_iff, negb_true_iff. intros [Hc Hp].
    rewrite Ascii.eqb_sym, Hc, IH by assumption. reflexivity.
Qed.

Lemma split_no_sep (sep : ascii) (piece : string) :
  Str.excludes (Ascii.eqb sep) piece = true ->
  Str.split sep piece = [piece].
Proof.
  induction piece as [|c piece IH]; simpl; [reflexivity|].
  rewrite andb_true_iff, negb_true_iff. intros [Hc Hp].
  rewrite Ascii.eqb_sym, Hc, IH by assumption. reflexivity.
Qed.

(** Joining pieces without the separator and splitting again gives the
    pieces back, unless there is none. *)
Lemma split_join (sep : ascii) (l : list string) :
  l ≠ [] ->
  Forall (fun piece => Str.excludes (Ascii.eqb sep) piece = true) l ->
  Str.split sep (Str.join (String sep EmptyString) l) = l.
Proof.
  intros Hne Hall. induction Hall as [|piece l Hp Hl IH]; [congruence|].
  destruct l as [|piece' l].
  - simpl. apply split_no_sep, Hp.
  - change (Str.join (String sep EmptyString) (piece :: piece' :: l))
      with (piece ++ String sep (Str.join (String sep EmptyString) (piece' :: l))).
    rewrite split_app by assumption. f_equal. apply IH. congruence.
Qed.

(** ** The pattern of a specifier *)

Lemma relation_symbol (r : Relation) (v : string) :
  Regex.relation (symbol r ++ v) = Some (r, v).
Proof. destruct r; reflexivity. Qed.

Lemma symbol_no_space (r : Relation) (v : string) :
  Str.lstrip (symbol r ++ v) = symbol r ++ v.
Proof. destruct r; reflexivity. Qed.

Lemma lstrip_spaces (ws s : string) :
  Regex.spaces ws -> Str.lstrip (ws ++ s) = Str.lstrip s.
Proof.
  unfold Regex.spaces. induction ws as [|c ws IH]; simpl; [reflexivity|].
  rewrite andb_true_iff, negb_true_iff, negb_false_iff. intros [-> Hws].
  apply IH, Hws.
Qed.

Lemma lstrip_split (s : string) :
  exists ws, Regex.spaces ws /\ s = ws ++ Str.lstrip s.
Proof.
  induction s as [|c s (ws & Hws & IH)]; simpl.
  - exists EmptyString. split; reflexivity.
  - destruct (Str.isspace c) eqn:E.
    + exists (String c ws). split.
      * unfold Regex.spaces. simpl. rewrite E. exact Hws.
      * rewrite IH at 1. reflexivity.
    + exists EmptyString. split; reflexivity.
Qed.

Lemma lstrip_empty (s : string) :
  Str.is_empty (Str.lstrip s) = true <-> Regex.spaces s.
Proof.
  unfold Regex.spaces. induction s as [|c s IH]; simpl; [tauto|].
  destruct (Str.isspace c); simpl; [exact IH|]. split; discriminate.
Qed.

Lemma strip_prefix_app (p s rest : string) :
  Regex.strip_prefix p s = Some rest <-> s = p ++ rest.
Proof.
  revert s. induction p as [|a p IH]; intros s; simpl.
  - change (EmptyString ++ rest) with rest. split; congruence.
  - change (String a p ++ rest) with (String a (p ++ rest)).
    destruct s as [|b s]; [split; discriminate|].
    destruct (Ascii.eqb_spec a b) as [->|Hab].
    + rewrite IH. split; congruence.
    + split; [discriminate|congruence].
Qed.

Lemma relation_app (s rest : string) (r : Relation) :
  Regex.relation s = Some (r, rest) <-> s = symbol r ++ rest.
Proof.
  split.
  - unfold Regex.relation, Regex.alternatives, Regex.first_match.
    repeat match goal with
           | |- context [Regex.strip_prefix ?p s] =>
               let E := fresh in
               destruct (Regex.strip_prefix p s) eqn:E;
               [apply strip_prefix_app in E; intros [= <- <-]; exact E|]
           end.
    discriminate.
  - intros ->. destruct r; reflexivity.
Qed.

Lemma version_app (s v rest : string) :
  Regex.version s = (v, rest) -> Regex.version_run v /\ s = v ++ rest.
Proof.
  unfold Regex.version_run. revert v rest.
  induction s as [|c s IH]; intros v rest; simpl.
  - intros [= <- <-]. split; reflexivity.
  - destruct (Regex.version_char c) eqn:E.
    + destruct (Regex.version s) as [v' rest'].
      destruct (IH v' rest' eq_refl) as [Hv ->].
      intros [= <- <-]. simpl. rewrite E. split; [exact Hv|reflexivity].
    + intros [= <- <-]. split; reflexivity.
Qed.

Lemma version_then_spaces (v ws : string) :
  Regex.version_run v ->
  Regex.spaces ws ->
  Regex.version (v ++ ws) = (v, ws).
Proof.
  unfold Regex.version_run, Regex.spaces. intros Hv Hws.
  induction v as [|c v IH]; simpl in *.
  - destruct ws as [|c ws]; [reflexivity|]. simpl in *.
    apply andb_true_iff in Hws as [Hc _].
    rewrite negb_true_iff, negb_false_iff in Hc.
    unfold Regex.version_char. rewrite Hc, !orb_true_r. reflexivity.
  - apply andb_true_iff in Hv as [Hc Hv].
    rewrite negb_true_iff, negb_false_iff in Hc.
    rewrite Hc, IH by assumption. reflexivity.
Qed.

Lemma version_run_lstrip (v s : string) :
  Regex.version_run v -> v ≠ EmptyString -> Str.lstrip (v ++ s) = v ++ s.
Proof.
  unfold Regex.version_run. destruct v as [|c v]; [congruence|]. simpl.
  rewrite andb_true_iff, negb_true_iff, negb_false_iff. intros [Hc _] _.
  unfold Regex.version_char in Hc.
  destruct (Str.isspace c); [|reflexivity].
  rewrite !orb_true_r in Hc. discriminate.
Qed.

(** The search finds a relation and a version exactly when the string is
    whitespace, the relation, whitespace, the version as a run of version
    characters, and whitespace. The run may be empty. *)
Lemma search_matches (spec : string) (rel : Relation) (v : string) :
  Regex.search spec = Some (rel, v) <-> Regex.matches spec rel v.
Proof.
  unfold Regex.search, Regex.matches. split.
  - destruct (lstrip_split spec) as (ws1 & Hws1 & E1).
    destruct (Regex.relation (Str.lstrip spec)) as [[r s]|] eqn:Er;
      [|discriminate].
    apply relation_app in Er.
    destruct (lstrip_split s) as (ws2 & Hws2 & E2).
    destruct (Regex.version (Str.lstrip s)) as [v' rest] eqn:Ev.
    apply version_app in Ev as [Hv Ev].
    destruct (Str.is_empty (Str.lstrip rest)) eqn:Ee; [|discriminate].
    apply lstrip_empty in Ee. intros [= <- <-].
    exists ws1, ws2, rest. repeat (split; [assumption|]).
    rewrite E1 at 1. rewrite Er. rewrite E2 at 1. rewrite Ev. reflexivity.
  - intros (ws1 & ws2 & ws3 & Hws1 & Hws2 & Hv & Hws3 & ->).
    rewrite lstrip_spaces, symbol_no_space by assumption.
    rewrite (proj2 (relation_app _ _ _) eq_refl).
    rewrite lstrip_spaces by assumption.
    destruct (decide (v = EmptyString)) as [->|Hne].
    + change (EmptyString ++ ws3) with ws3.
      apply lstrip_empty in Hws3.
      destruct (Str.lstrip ws3); [reflexivity|discriminate].
    + rewrite version_run_lstrip, version_then_spaces by assumption.
      rewrite (proj2 (lstrip_empty ws3) Hws3). reflexivity.
Qed.

Section Properties.

Variable version_compare : string -> string -> Z.

Local Abbreviation contains := (Specifier_contains version_compare).
Local Abbreviation intersection := (Specifier_intersection version_compare).
Local Abbreviation result := (intersection_result version_compare).

(** The set returned by [Specifier.intersection] on two specifiers. *)
Lemma intersection_returns (self other : Specifier) :
  intersection self (PSpecifier other)
  = Returns (list_to_set (default [] (result self other))).
Proof.
  unfold Specifier_intersection; simpl.
  destruct (result self other) as [l|]; simpl.
  - apply SpecifierSet_init_specifiers.
  - apply SpecifierSet_init_empty_string.
Qed.

Lemma intersection_singleton (self other s : Specifier) :
  result self other = Some [s] ->
  intersection self (PSpecifier other) = Returns {[ s ]}.
Proof.
  intros E. rewrite intersection_returns, E. simpl. f_equal.
  apply (right_id_L ∅ (∪)).
Qed.

Lemma intersection_empty (self other : Specifier) :
  result self other = None \/ result self other = Some [] ->
  intersection self (PSpecifier other) = Returns ∅.
Proof.
  intros [E|E]; rewrite intersection_returns, E; reflexivity.
Qed.

(** The branch of equal versions. *)
Lemma result_same_version (self other : Specifier) :
  self ≠ other ->
  relation self ≠ equal ->
  relation other ≠ equal ->
  version self = version other ->
  result self other
  = Some [if inclusive (relation self) then other else self].
Proof.
  intros Hne H1 H2 Hv. unfold intersection_result.
  rewrite bool_decide_eq_false_2 by congruence.
  destruct self as [r1 v1], other as [r2 v2]; simpl in *.
  destruct r1; try congruence; destruct r2; try congruence;
    simpl; rewrite (bool_decide_eq_true_2 (v1 = v2)) by assumption;
    reflexivity.
Qed.

(** C5: two different specifiers with the same version string, neither
    with the relation [=]. The intersection is the singleton of [other]
    when the relation of [self] is inclusive and of [self] otherwise;
    when exactly one of the two relations is strict, that member is the
    strict operand. So [<=2.2] and [<<2.2] intersect in exactly
    [<<2.2]. *)
Theorem same_version_tie_break (self other : Specifier) :
  self ≠ other ->
  version self = version other ->
  relation self ≠ equal ->
  relation other ≠ equal ->
  let kept := if inclusive (relation self) then other else self in
  intersection self (PSpecifier other) = Returns {[ kept ]}
  /\ (strict (relation self) ≠ strict (relation other) ->
      strict (relation kept) = true)
  /\ intersection (mkSpecifier lower_or_equal_than "2.2")
                  (PSpecifier (mkSpecifier lower_than "2.2"))
     = Returns {[ mkSpecifier lower_than "2.2" ]}.
Proof.
  intros Hne Hv H1 H2 kept. split; [|split].
  - apply intersection_singleton, result_same_version; assumption.
  - subst kept. destruct self as [[] v1], other as [[] v2]; simpl in *; congruence.
  - apply intersection_singleton. reflexivity.
Qed.

(** The branches where one relation is [=]. *)
Lemma result_self_equal (self other : Specifier) :
  self ≠ other ->
  relation self = equal ->
  result self other
  = if contains other (version self) then Some [self] else None.
Proof.
  intros Hne H1. unfold intersection_result.
  rewrite bool_decide_eq_false_2 by congruence.
  rewrite H1. reflexivity.
Qed.

Lemma result_other_equal (self other : Specifier) :
  self ≠ other ->
  relation self ≠ equal ->
  relation other = equal ->
  result self other
  = if contains self (version other) then Some [other] else None.
Proof.
  intros Hne H1 H2. unfold intersection_result.
  rewrite bool_decide_eq_false_2 by congruence.
  rewrite H2. destruct (relation self); try congruence; reflexivity.
Qed.

(** C6: two different specifiers. When the relation of [self] is [=], the
    intersection is the singleton of [self] if [other] contains the version
    of [self], and the empty set otherwise; when the relation of [other] is
    [=] and that of [self] is not (the source tests [self] first), the same
    holds with the roles exchanged. So [>=2.2] and [=2.2.1] intersect in
    exactly [=2.2.1] as soon as the comparison puts 2.2.1 at or above
    2.2. *)
Theorem equal_relation_absorbs (self other : Specifier) :
  self ≠ other ->
  (relation self = equal ->
   intersection self (PSpecifier other)
   = Returns (if contains other (version self) then {[ self ]} else ∅))
  /\ (relation self ≠ equal ->
      relation other = equal ->
      intersection self (PSpecifier other)
      = Returns (if contains self (version other) then {[ other ]} else ∅))
  /\ (version_compare "2.2.1" "2.2" >= 0 ->
      intersection (mkSpecifier greater_or_equal_than "2.2")
                   (PSpecifier (mkSpecifier equal "2.2.1"))
      = Returns {[ mkSpecifier equal "2.2.1" ]}).
Proof.
  intros Hne. split; [|split].
  - intros H1. pose proof (result_self_equal self other Hne H1) as E.
    destruct (contains other (version self)).
    + apply intersection_singleton, E.
    + apply intersection_empty. left. exact E.
  - intros H1 H2. pose proof (result_other_equal self other Hne H1 H2) as E.
    destruct (contains self (version other)).
    + apply intersection_singleton, E.
    + apply intersection_empty. left. exact E.
  - intros Hge. apply intersection_singleton.
    rewrite result_other_equal by (simpl; congruence).
    unfold Specifier_contains; simpl.
    unfold _compare_greater_or_equal_than.
    replace (version_compare "2.2.1" "2.2" >=? 0) with true; [reflexivity|].
    symmetry. rewrite Z.geb_leb. apply Z.leb_le. lia.
Qed.

(** The code reads the direction of a bound off the first character of
    its symbol. *)
Lemma first_char_direction (r1 r2 : Relation) :
  r1 ≠ equal ->
  r2 ≠ equal ->
  bool_decide (char_at (symbol r1) 0 = char_at (symbol r2) 0)
  = bool_decide (points r1 = points r2).
Proof. destruct r1, r2; intros; try congruence; reflexivity. Qed.

Lemma first_char_lower (r : Relation) :
  r ≠ equal ->
  bool_decide (char_at (symbol r) 0 = Some ">"%char)
  = bool_decide (points r = Some Lower).
Proof. destruct r; intros; try congruence; reflexivity. Qed.

(** The branch of overlapping bounds with different versions. *)
Lemma result_overlap (self other : Specifier) :
  version self ≠ version other ->
  relation self ≠ equal ->
  relation other ≠ equal ->
  contains self (version other) = true \/ contains other (version self) = true ->
  result self other
  = Some (if bool_decide (points (relation self) = points (relation other))
          then if bool_decide (points (relation self) = Some Lower)
               then [if version_compare (version self) (version other) >? 0
                     then self else other]
               else [if version_compare (version self) (version other) >? 0
                     then other else self]
          else [self; other]).
Proof.
  intros Hv H1 H2 Hov. unfold intersection_result.
  rewrite bool_decide_eq_false_2 by congruence.
  rewrite (bool_decide_eq_false_2 (symbol (relation self) = "="))
    by (destruct (relation self); simpl; congruence).
  rewrite (bool_decide_eq_false_2 (symbol (relation other) = "="))
    by (destruct (relation other); simpl; congruence).
  rewrite (bool_decide_eq_false_2 (version self = version other)) by assumption.
  replace (contains self (version other) || contains other (version self))
    with true by (symmetry; apply orb_true_iff; exact Hov).
  rewrite first_char_direction, first_char_lower by assumption.
  repeat case_bool_decide; reflexivity.
Qed.

(** The branch of overlapping bounds, by directions: two specifiers with
    different version strings, neither with the
    relation [=], one of which contains the version of the other. If both
    are lower bounds ([>=], [>>]) the intersection is the singleton of
    [self] when its version compares above that of [other] and of [other]
    otherwise; if both are upper bounds ([<<], [<=]) it is the singleton of
    [other] when the version of [self] compares above and of [self]
    otherwise; if they point in opposite directions it is the set of the
    two members [self] and [other]. *)
Theorem overlapping_bounds (self other : Specifier) :
  version self ≠ version other ->
  relation self ≠ equal ->
  relation other ≠ equal ->
  contains self (version other) = true \/ contains other (version self) = true ->
  let is_self_greater := version_compare (version self) (version other) >? 0 in
  (points (relation self) = Some Lower ->
   points (relation other) = Some Lower ->
   intersection self (PSpecifier other)
   = Returns {[ if is_self_greater then self else other ]})
  /\ (points (relation self) = Some Upper ->
      points (relation other) = Some Upper ->
      intersection self (PSpecifier other)
      = Returns {[ if is_self_greater then other else self ]})
  /\ (points (relation self) ≠ points (relation other) ->
      exists members : SpecifierSet,
        intersection self (PSpecifier other) = Returns members
        /\ members = {[ self; other ]}
        /\ size members = 2%nat).
Proof.
  intros Hv H1 H2 Hov g.
  pose proof (result_overlap self other Hv H1 H2 Hov) as E.
  split; [|split].
  - intros P1 P2. apply intersection_singleton. rewrite E.
    rewrite !bool_decide_eq_true_2 by congruence. reflexivity.
  - intros P1 P2. apply intersection_singleton. rewrite E.
    rewrite bool_decide_eq_true_2 by congruence.
    rewrite bool_decide_eq_false_2 by congruence. reflexivity.
  - intros P. exists {[ self; other ]}. split; [|split].
    + rewrite intersection_returns, E.
      rewrite bool_decide_eq_false_2 by assumption. simpl.
      f_equal. f_equal. apply (right_id_L ∅ (∪)).
    + reflexivity.
    + rewrite size_union.
      * rewrite !size_singleton. reflexivity.
      * apply disjoint_singleton_l. rewrite elem_of_singleton. congruence.
Qed.

(** C8: a set contains a version exactly when every member contains it;
    the empty set contains every version. *)
Theorem SpecifierSet_contains_all (self : SpecifierSet) (item : string) :
  (SpecifierSet_contains version_compare self item = true
   <-> forall s, s ∈ self -> contains s item = true)
  /\ SpecifierSet_contains version_compare ∅ item = true.
Proof.
  split.
  - unfold SpecifierSet_contains. rewrite forallb_forall. split.
    + intros H s Hs. apply H. apply list_elem_of_In, elem_of_elements, Hs.
    + intros H s Hs. apply H. apply elem_of_elements, list_elem_of_In, Hs.
  - unfold SpecifierSet_contains. rewrite elements_empty. reflexivity.
Qed.

(** *** Where the intersection of two specifiers commutes *)

(** The five tests agree on the sign of a comparison. *)
Lemma sign_cases (x : Z) :
  ((x <? 0) = true /\ (x <=? 0) = true /\ (x =? 0) = false
   /\ (x >=? 0) = false /\ (x >? 0) = false /\ x < 0)
  \/ ((x <? 0) = false /\ (x <=? 0) = true /\ (x =? 0) = true
      /\ (x >=? 0) = true /\ (x >? 0) = false /\ x = 0)
  \/ ((x <? 0) = false /\ (x <=? 0) = false /\ (x =? 0) = false
      /\ (x >=? 0) = true /\ (x >? 0) = true /\ x > 0).
Proof.
  rewrite Z.geb_leb, Z.gtb_ltb.
  destruct (Z.ltb_spec x 0), (Z.leb_spec x 0), (Z.eqb_spec x 0),
    (Z.leb_spec 0 x), (Z.ltb_spec 0 x); try lia; auto 10.
Qed.

(** Outside the two situations that the branches do not tell apart, the
    intersection of two specifiers is the same set in both orders: when the
    comparison is antisymmetric on the two versions, different version
    strings do not compare equal, and two bounds on the same version string
    point in the same direction. *)
Lemma intersection_commutes (a b : Specifier) :
  (version_compare (version a) (version b) > 0
   <-> version_compare (version b) (version a) < 0) ->
  (version_compare (version a) (version b) < 0
   <-> version_compare (version b) (version a) > 0) ->
  (version a ≠ version b ->
   version_compare (version a) (version b) ≠ 0) ->
  (version a = version b ->
   points (relation a) = points (relation b)
   \/ relation a = equal \/ relation b = equal) ->
  intersection a (PSpecifier b) = intersection b (PSpecifier a).
Proof.
  intros H1 H2 H3 H4. rewrite !intersection_returns. f_equal.
  destruct (decide (a = b)) as [->|Hne]; [reflexivity|].
  unfold intersection_result.
  rewrite !(bool_decide_eq_false_2 (_ = _ :> Specifier)) by congruence.
  destruct a as [r1 v1], b as [r2 v2]; simpl in *.
  unfold Specifier_contains; simpl.
  destruct (decide (v1 = v2)) as [->|Hv].
  - rewrite !(bool_decide_eq_true_2 (v2 = v2)) by reflexivity.
    destruct r1, r2; simpl; try reflexivity; try congruence;
      destruct H4 as [H4|[H4|H4]]; try discriminate; reflexivity.
  - rewrite !(bool_decide_eq_false_2 (v1 = v2)) by assumption.
    rewrite !(bool_decide_eq_false_2 (v2 = v1)) by congruence.
    specialize (H3 Hv). clear H4. unfold_compare.
    destruct (sign_cases (version_compare v1 v2))
      as [(C1 & C2 & C3 & C4 & C5 & C6)|[(C1 & C2 & C3 & C4 & C5 & C6)
                                        |(C1 & C2 & C3 & C4 & C5 & C6)]];
    destruct (sign_cases (version_compare v2 v1))
      as [(D1 & D2 & D3 & D4 & D5 & D6)|[(D1 & D2 & D3 & D4 & D5 & D6)
                                        |(D1 & D2 & D3 & D4 & D5 & D6)]];
    try lia;
    destruct r1, r2; simpl; unfold_compare;
    rewrite ?C1, ?C2, ?C3, ?C4, ?C5, ?D1, ?D2, ?D3, ?D4, ?D5; simpl;
    try reflexivity;
    rewrite !(right_id_L ∅ (∪)); apply (comm_L (∪)).
Qed.

(** *** The loops of [SpecifierSet.intersection] *)

(** The inner loop does not depend on the order in which [intersection] is
    enumerated: it gives the empty set if one member has an empty
    intersection with [specifier], and collects all the intersections
    otherwise. *)
Lemma intersect_each_order (specifier : Specifier) (l1 l2 : list Specifier)
    (parsed : SpecifierSet) :
  l1 ≡ₚ l2 ->
  intersect_each version_compare specifier l1 parsed
  = intersect_each version_compare specifier l2 parsed.
Proof.
  intros Hperm. revert parsed.
  induction Hperm as [|x l1 l2 _ IH|x y l|l1 l2 l3 _ IH1 _ IH2]; intros parsed.
  - reflexivity.
  - simpl. rewrite intersection_returns. simpl.
    destruct (SpecifierSet_len _ =? 0)%nat; [reflexivity|apply IH].
  - simpl. rewrite !intersection_returns. simpl.
    destruct (SpecifierSet_len (list_to_set (default [] (result y specifier)))
              =? 0)%nat;
      destruct (SpecifierSet_len (list_to_set (default [] (result x specifier)))
                =? 0)%nat; try reflexivity.
    f_equal. rewrite <- !(assoc_L (∪)). f_equal. apply (comm_L (∪)).
  - rewrite IH1. apply IH2.
Qed.

(** *** The operations on sets return *)

Lemma intersect_each_returns (specifier : Specifier) (l : list Specifier)
    (parsed : SpecifierSet) :
  exists r, intersect_each version_compare specifier l parsed = Returns r.
Proof.
  revert parsed. induction l as [|spec l IH]; intros parsed; simpl.
  - eexists; reflexivity.
  - rewrite intersection_returns. simpl.
    destruct (SpecifierSet_len _ =? 0)%nat.
    + eexists; reflexivity.
    + apply IH.
Qed.

Lemma intersect_all_returns (specifiers l : list Specifier) :
  exists r, intersect_all version_compare specifiers l = Returns r.
Proof.
  revert l. induction specifiers as [|specifier rest IH]; intros l; simpl.
  - eexists; reflexivity.
  - destruct (intersect_each_returns specifier l ∅) as [parsed ->]. simpl.
    destruct (elements parsed).
    + eexists; reflexivity.
    + apply IH.
Qed.

Lemma intersection_in_order_returns (specifiers : list Specifier) :
  exists r, intersection_in_order version_compare specifiers = Returns r.
Proof.
  destruct specifiers as [|seed rest]; simpl.
  - eexists; reflexivity.
  - destruct (intersect_all_returns rest [seed]) as [l ->]. simpl.
    rewrite SpecifierSet_init_specifiers. eexists; reflexivity.
Qed.

(** With a comparison that answers, [intersection] and [union] of two
    sets return a set, whatever the order in which the pooled members are
    enumerated, and the intersection of two specifiers returns a set. A
    string operand is parsed first: one that parses is handled as the set
    it denotes, and only the parsing of one that does not parse raises.
    The bounds [>=3.0] and [<<2.0] intersect in the empty set once 3.0
    compares above 2.0. *)
Theorem operations_return (self other : SpecifierSet) :
  (exists r, SpecifierSet_intersection version_compare self (PSpecifierSet other)
             = Returns r)
  /\ (forall order, exists r, intersection_in_order version_compare order = Returns r)
  /\ (forall a b, exists r, intersection a (PSpecifier b) = Returns r)
  /\ (forall s,
        SpecifierSet_intersection version_compare self (PStr s)
        = (parsed ← SpecifierSet_init (OfString s);
           SpecifierSet_intersection version_compare self (PSpecifierSet parsed))
        /\ SpecifierSet_union self (PStr s)
           = (parsed ← SpecifierSet_init (OfString s);
              SpecifierSet_union self (PSpecifierSet parsed)))
  /\ SpecifierSet_union self (PSpecifierSet other)
     = Returns (self ∪ other)
  /\ (forall s,
        SpecifierSet_init (OfString s) = Returns other ->
        SpecifierSet_intersection version_compare self (PStr s)
        = SpecifierSet_intersection version_compare self (PSpecifierSet other)
        /\ SpecifierSet_union self (PStr s)
           = Returns (self ∪ other))
  /\ (version_compare "3.0" "2.0" > 0 ->
      version_compare "2.0" "3.0" < 0 ->
      intersection (mkSpecifier greater_or_equal_than "3.0")
                   (PSpecifier (mkSpecifier lower_than "2.0"))
      = Returns ∅).
Proof.
  split; [apply intersection_in_order_returns|].
  split; [apply intersection_in_order_returns|].
  split; [intros a b; rewrite intersection_returns; eexists; reflexivity|].
  split.
  { intros s. unfold SpecifierSet_intersection, SpecifierSet_union.
    destruct (SpecifierSet_init (OfString s)); split; reflexivity. }
  split; [reflexivity|].
  split.
  { intros s H. unfold SpecifierSet_intersection, SpecifierSet_union.
    rewrite H. split; reflexivity. }
  intros Hgt Hlt. apply intersection_empty. right.
  unfold intersection_result, Specifier_contains. simpl.
  unfold_compare.
  replace (version_compare "2.0" "3.0" >=? 0) with false
    by (symmetry; rewrite Z.geb_leb; apply Z.leb_gt; lia).
  replace (version_compare "3.0" "2.0" <? 0) with false
    by (symmetry; apply Z.ltb_ge; lia).
  reflexivity.
Qed.

End Properties.

(** ** Printing and parsing again *)

Lemma version_char_no_space (c : ascii) :
  Str.isspace c = true -> negb (Regex.version_char c) = true.
Proof.
  intros H. unfold Regex.version_char. rewrite H, negb_involutive.
  rewrite !orb_true_iff. auto.
Qed.

Lemma version_char_no_comma (c : ascii) :
  Ascii.eqb "," c = true -> negb (Regex.version_char c) = true.
Proof.
  intros H. unfold Regex.version_char. rewrite Ascii.eqb_sym in H.
  rewrite H, negb_involutive. reflexivity.
Qed.

(** The starred class takes a whole well-formed version. *)
Lemma version_whole (v : string) :
  Str.excludes (fun c => negb (Regex.version_char c)) v = true ->
  Regex.version v = (v, EmptyString).
Proof.
  induction v as [|c v IH]; simpl; [reflexivity|].
  rewrite andb_true_iff, negb_true_iff, negb_false_iff. intros [-> Hv].
  rewrite IH by assumption. reflexivity.
Qed.

(** A printed specifier parses to itself. *)
Lemma Specifier_of_string_str (s : Specifier) :
  well_formed s ->
  Specifier_of_string (Specifier_str s) = Returns s.
Proof.
  destruct s as [r v]. unfold well_formed, Specifier_str; simpl. intros Hv.
  assert (Str.excludes Str.isspace v = true) as Hsp
    by (eapply excludes_weaken; [apply version_char_no_space|exact Hv]).
  unfold Specifier_of_string, Regex.search.
  rewrite symbol_no_space, relation_symbol.
  rewrite lstrip_no_space, version_whole by assumption. simpl.
  rewrite strip_no_space by assumption. reflexivity.
Qed.

(** A printed specifier has no comma and no space, and is not empty. *)
Lemma Specifier_str_no_comma (s : Specifier) :
  well_formed s ->
  Str.excludes (Ascii.eqb ",") (Specifier_str s) = true.
Proof.
  intros Hv. unfold Specifier_str. rewrite excludes_app.
  apply andb_true_iff. split.
  - destruct (relation s); reflexivity.
  - eapply excludes_weaken; [apply version_char_no_comma|exact Hv].
Qed.

Lemma Specifier_str_no_space (s : Specifier) :
  well_formed s ->
  Str.excludes Str.isspace (Specifier_str s) = true.
Proof.
  intros Hv. unfold Specifier_str. rewrite excludes_app.
  apply andb_true_iff. split.
  - destruct (relation s); reflexivity.
  - eapply excludes_weaken; [apply version_char_no_space|exact Hv].
Qed.

Lemma Specifier_str_not_empty (s : Specifier) :
  Str.is_empty (Specifier_str s) = false.
Proof. destruct s as [[] v]; reflexivity. Qed.

(** The pieces of the joined texts of well-formed specifiers are these
    texts. *)
Lemma pieces_join (l : list Specifier) :
  Forall well_formed l ->
  pieces (Str.join "," (map Specifier_str l)) = map Specifier_str l.
Proof.
  intros Hl. unfold pieces. destruct l as [|s l]; [reflexivity|].
  rewrite split_join.
  - induction Hl as [|x l' Hx _ IH]; [reflexivity|].
    cbn [map List.filter].
    rewrite strip_no_space by (apply Specifier_str_no_space, Hx).
    rewrite Specifier_str_not_empty. cbn [negb map]. f_equal.
    + apply strip_no_space, Specifier_str_no_space, Hx.
    + apply IH.
  - discriminate.
  - apply Forall_fmap. eapply Forall_impl; [exact Hl|].
    intros x Hx. apply Specifier_str_no_comma, Hx.
Qed.

Lemma parse_each_strs (l : list Specifier) (parsed : SpecifierSet) :
  Forall well_formed l ->
  parse_each (map PStr (map Specifier_str l)) parsed
  = Returns (parsed ∪ list_to_set l).
Proof.
  intros Hl. revert parsed.
  induction Hl as [|s l Hs _ IH]; intros parsed; simpl.
  - f_equal. symmetry. apply (right_id_L ∅ (∪)).
  - rewrite Specifier_of_string_str by assumption. simpl.
    rewrite IH. f_equal. symmetry. apply (assoc_L (∪)).
Qed.

(** Parsing the joined texts of well-formed specifiers gives their set. *)
Lemma SpecifierSet_init_join (l : list Specifier) :
  Forall well_formed l ->
  SpecifierSet_init (OfString (Str.join "," (map Specifier_str l)))
  = Returns (list_to_set l).
Proof.
  intros Hl. unfold SpecifierSet_init.
  rewrite pieces_join, parse_each_strs by assumption.
  f_equal. apply (left_id_L ∅ (∪)).
Qed.

(** C9: parsing the text of a set of specifiers that the parser can have
    produced gives a set that [SpecifierSet.__eq__] finds equal to the
    first, whatever the order of the members in the text. *)
Theorem str_reparses (self : SpecifierSet) :
  set_Forall well_formed self ->
  SpecifierSet_init (OfString (SpecifierSet_str self)) = Returns self
  /\ (parsed ← SpecifierSet_init (OfString (SpecifierSet_str self));
      SpecifierSet_eq parsed (PSpecifierSet self)) = Returns true.
Proof.
  intros Hwf.
  assert (SpecifierSet_init (OfString (SpecifierSet_str self)) = Returns self)
    as E.
  { unfold SpecifierSet_str, Str.sorted.
    destruct (Permutation_map_inv Specifier_str (elements self)
                (merge_sort_Permutation Str.le
                   (map Specifier_str (elements self))))
      as (l & -> & Hperm).
    rewrite SpecifierSet_init_join.
    - f_equal. apply set_eq. intros s.
      rewrite elem_of_list_to_set, <- Hperm. apply elem_of_elements.
    - apply Forall_forall. intros s Hs. apply Hwf.
      apply elem_of_elements. rewrite Hperm. exact Hs. }
  split; [exact E|].
  rewrite E. change (Returns (bool_decide (self = self)) = Returns true).
  f_equal. apply bool_decide_eq_true_2. reflexivity.
Qed.

(** ** What the parser produces *)

Lemma version_well_formed (s : string) :
  Str.excludes (fun c => negb (Regex.version_char c)) (Regex.version s).1 = true.
Proof.
  induction s as [|c s IH]; simpl; [reflexivity|].
  destruct (Regex.version_char c) eqn:E; [|reflexivity].
  destruct (Regex.version s) as [v rest]. simpl in *.
  rewrite E, IH. reflexivity.
Qed.

(** Every specifier that comes out of the parser is well formed. *)
Lemma Specifier_of_string_well_formed (spec : string) (s : Specifier) :
  Specifier_of_string spec = Returns s -> well_formed s.
Proof.
  unfold Specifier_of_string, Regex.search.
  destruct (Regex.relation _) as [[rel rest]|]; [|discriminate].
  pose proof (version_well_formed (Str.lstrip rest)) as Hv.
  destruct (Regex.version _) as [v rest']. simpl in Hv.
  destruct (Str.is_empty _); [|discriminate].
  intros [= <-]. unfold well_formed; simpl.
  rewrite strip_no_space; [exact Hv|].
  eapply excludes_weaken; [apply version_char_no_space|exact Hv].
Qed.

Lemma parse_each_strings_well_formed (l : list string) (parsed s : SpecifierSet) :
  set_Forall well_formed parsed ->
  parse_each (map PStr l) parsed = Returns s ->
  set_Forall well_formed s.
Proof.
  revert parsed. induction l as [|piece l IH]; intros parsed Hp; simpl.
  - intros [= <-]. exact Hp.
  - destruct (Specifier_of_string piece) as [x| |e] eqn:E; try discriminate.
    simpl. apply IH. apply set_Forall_union; [exact Hp|].
    apply set_Forall_singleton. eapply Specifier_of_string_well_formed, E.
Qed.

(** Every set parsed from a string has well-formed members only. *)
Lemma SpecifierSet_init_well_formed (spec : string) (s : SpecifierSet) :
  SpecifierSet_init (OfString spec) = Returns s ->
  set_Forall well_formed s.
Proof.
  apply parse_each_strings_well_formed. apply set_Forall_empty.
Qed.

(** ** Parsing failures *)

(** The constructor returns the relation and the version of a string that
    follows the pattern, and raises [InvalidSpecifier] on any other. *)
Lemma Specifier_of_string_matches (spec : string) :
  (forall rel v,
     Regex.matches spec rel v ->
     Specifier_of_string spec = Returns (mkSpecifier rel v))
  /\ ((forall rel v, ~ Regex.matches spec rel v) ->
      exists message,
        Specifier_of_string spec = Raises (InvalidSpecifier message)).
Proof.
  unfold Specifier_of_string. split.
  - intros rel v H. pose proof H as (ws1 & ws2 & ws3 & _ & _ & Hv & _).
    apply search_matches in H. rewrite H. rewrite strip_no_space; [reflexivity|].
    eapply excludes_weaken; [apply version_char_no_space|exact Hv].
  - intros H. destruct (Regex.search spec) as [[rel v]|] eqn:E.
    + apply search_matches in E. destruct (H rel v E).
    + eexists; reflexivity.
Qed.

(** C2 on the code: the empty string and [~~1.0] are refused with
    [InvalidSpecifier]; the string [>= ] is accepted, as the relation [>=]
    with the empty version, since the run of version characters is
    starred. *)
Theorem parsing_failures :
  Specifier_init (PStr "") = Raises (InvalidSpecifier "Invalid specifier: ''")
  /\ Specifier_init (PStr "~~1.0")
     = Raises (InvalidSpecifier "Invalid specifier: '~~1.0'")
  /\ Specifier_init (PStr ">= ")
     = Returns (mkSpecifier greater_or_equal_than "").
Proof. repeat split. Qed.

(** ** Equality with strings *)



(** ** Intersections that depend on the order *)

(** C1 on the code: [<=1] and [>=1] have the same version, so the
    intersection keeps the second operand whatever the comparison: taken
    one way it is [>=1], taken the other way [<=1]. With the Debian
    comparison the first contains the version 2 and the second does not. *)
Theorem intersection_depends_on_operand_order :
  let a := mkSpecifier lower_or_equal_than "1" in
  let b := mkSpecifier greater_or_equal_than "1" in
  (forall version_compare,
     Specifier_intersection version_compare a (PSpecifier b) = Returns {[ b ]}
     /\ Specifier_intersection version_compare b (PSpecifier a) = Returns {[ a ]})
  /\ SpecifierSet_contains Debian.version_compare {[ b ]} "2" = true
  /\ SpecifierSet_contains Debian.version_compare {[ a ]} "2" = false.
Proof.
  intros a b. split; [|split].
  - intros version_compare.
    split; apply intersection_singleton, result_same_version; done.
  - vm_compute. reflexivity.
  - vm_compute. reflexivity.
Qed.

(** C4 on the code: the pool of the sets [<=1] and [>=1] has two
    enumerations. Seeded with [<=1] the intersection is [>=1], seeded with
    [>=1] it is [<=1], whatever the comparison; with the Debian comparison
    the two results differ on the version 2. *)
Theorem intersection_depends_on_enumeration :
  let a := mkSpecifier lower_or_equal_than "1" in
  let b := mkSpecifier greater_or_equal_than "1" in
  [a; b] ≡ₚ elements ({[ a ]} ∪ {[ b ]} : SpecifierSet)
  /\ [b; a] ≡ₚ elements ({[ a ]} ∪ {[ b ]} : SpecifierSet)
  /\ (forall version_compare,
        intersection_in_order version_compare [a; b] = Returns {[ b ]}
        /\ intersection_in_order version_compare [b; a] = Returns {[ a ]})
  /\ SpecifierSet_contains Debian.version_compare {[ b ]} "2" = true
  /\ SpecifierSet_contains Debian.version_compare {[ a ]} "2" = false.
Proof.
  intros a b.
  assert ([a; b] ≡ₚ elements ({[ a ]} ∪ {[ b ]} : SpecifierSet)) as Hab.
  { rewrite elements_disj_union
      by (apply disjoint_singleton_l; rewrite elem_of_singleton; discriminate).
    rewrite !elements_singleton. reflexivity. }
  split; [exact Hab|]. split; [rewrite <- Hab; apply Permutation_swap|].
  split; [|split].
  - intros version_compare.
    assert (Specifier_intersection version_compare a (PSpecifier b)
            = Returns {[ b ]}) as Eab
      by (apply intersection_singleton, result_same_version; done).
    assert (Specifier_intersection version_compare b (PSpecifier a)
            = Returns {[ a ]}) as Eba
      by (apply intersection_singleton, result_same_version; done).
    unfold intersection_in_order, intersect_all, intersect_each.
    rewrite Eab, Eba.
    split; vm_compute; reflexivity.
  - vm_compute. reflexivity.
  - vm_compute. reflexivity.
Qed.

(** ** The Debian comparison on examples *)

Example compare_longer : Debian.version_compare "2.2.1" "2.2" = 1.
Proof. reflexivity. Qed.

Example compare_shorter : Debian.version_compare "2.2" "2.2.1" = -1.
Proof. reflexivity. Qed.

Example compare_numbers_not_texts : Debian.version_compare "2.10" "2.9" = 1.
Proof. reflexivity. Qed.

Example compare_leading_zero : Debian.version_compare "1.0" "1.00" = 0.
Proof. reflexivity. Qed.

Example compare_tilde : Debian.version_compare "1.0~rc1" "1.0" = -1.
Proof. reflexivity. Qed.

Example compare_epoch : Debian.version_compare "1:0.1" "2.0" = 1.
Proof. reflexivity. Qed.

Example compare_revision : Debian.version_compare "1.0-2" "1.0-10" = -1.
Proof. reflexivity. Qed.

Example compare_build :
  Debian.version_compare "3.5.0.2+201903211853" "3.4.2.4+201903080053" = 1.
Proof. vm_compute. reflexivity. Qed.

(** ** The properties on the examples of the documentation *)

(** The docstring of [SpecifierSet.intersection], for the enumeration of
    the pool by [elements]. *)
Example docstring_reduction :
  (self ← SpecifierSet_init (OfString ">= 2.2, << 2.4");
   r ← SpecifierSet_intersection Debian.version_compare self (PStr "<< 2.3");
   SpecifierSet_eq r (PStr ">= 2.2, << 2.3")) = Returns true.
Proof. vm_compute. reflexivity. Qed.

Example docstring_infeasible :
  (self ← SpecifierSet_init (OfString ">= 2.2, << 2.3");
   r ← SpecifierSet_intersection Debian.version_compare self (PStr ">= 2.4");
   SpecifierSet_eq r (PStr "")) = Returns true.
Proof. vm_compute. reflexivity. Qed.

(** Another enumeration of the pool of the first example keeps a third
    member: [<<2.4] meets only [>=2.2], not the [<<2.3] already there. *)
Example docstring_reduction_other_order :
  intersection_in_order Debian.version_compare
    [mkSpecifier lower_than "2.3"; mkSpecifier greater_or_equal_than "2.2";
     mkSpecifier lower_than "2.4"]
  = Returns {[ mkSpecifier lower_than "2.3";
               mkSpecifier greater_or_equal_than "2.2";
               mkSpecifier lower_than "2.4" ]}.
Proof. vm_compute. reflexivity. Qed.

(** Two bounds that [intersection_commutes] covers. *)
Example commutes_two_sided :
  Specifier_intersection Debian.version_compare
    (mkSpecifier greater_or_equal_than "2.2")
    (PSpecifier (mkSpecifier lower_than "2.3"))
  = Specifier_intersection Debian.version_compare
      (mkSpecifier lower_than "2.3")
      (PSpecifier (mkSpecifier greater_or_equal_than "2.2")).
Proof.
  apply intersection_commutes; simpl.
  - split; discriminate.
  - split; reflexivity.
  - discriminate.
  - discriminate.
Qed.

Lemma same_version_tie_break_example :
  let self := mkSpecifier lower_or_equal_than "2.2" in
  let other := mkSpecifier lower_than "2.2" in
  self ≠ other
  /\ version self = version other
  /\ relation self ≠ equal
  /\ relation other ≠ equal
  /\ Specifier_intersection Debian.version_compare self (PSpecifier other)
     = Returns {[ other ]}.
Proof.
  intros self other.
  assert (self ≠ other) as H1 by discriminate.
  assert (version self = version other) as H2 by reflexivity.
  assert (relation self ≠ equal) as H3 by discriminate.
  assert (relation other ≠ equal) as H4 by discriminate.
  exact (conj H1 (conj H2 (conj H3 (conj H4
           (proj1 (same_version_tie_break Debian.version_compare self other
                     H1 H2 H3 H4)))))).
Defined.

Lemma equal_relation_absorbs_example :
  let self := mkSpecifier greater_or_equal_than "2.2" in
  let other := mkSpecifier equal "2.2.1" in
  self ≠ other
  /\ relation self ≠ equal
  /\ relation other = equal
  /\ Debian.version_compare "2.2.1" "2.2" >= 0
  /\ Specifier_contains Debian.version_compare self (version other) = true
  /\ Specifier_intersection Debian.version_compare self (PSpecifier other)
     = Returns {[ other ]}.
Proof.
  intros self other.
  assert (self ≠ other) as H1 by discriminate.
  assert (relation self ≠ equal) as H2 by discriminate.
  assert (relation other = equal) as H3 by reflexivity.
  assert (Debian.version_compare "2.2.1" "2.2" >= 0) as H4
    by (vm_compute; discriminate).
  assert (Specifier_contains Debian.version_compare self (version other) = true)
    as H5 by reflexivity.
  exact (conj H1 (conj H2 (conj H3 (conj H4 (conj H5
           (proj2 (proj2 (equal_relation_absorbs Debian.version_compare
                            self other H1)) H4)))))).
Defined.

Lemma overlapping_bounds_example :
  let self := mkSpecifier greater_or_equal_than "2.2" in
  let other := mkSpecifier lower_than "2.3" in
  let above := mkSpecifier greater_than "2.2.1" in
  (version self ≠ version other
   /\ relation self ≠ equal
   /\ relation other ≠ equal
   /\ Specifier_contains Debian.version_compare self (version other) = true
   /\ points (relation self) ≠ points (relation other)
   /\ exists members : SpecifierSet,
       Specifier_intersection Debian.version_compare self (PSpecifier other)
       = Returns members
       /\ members = {[ self; other ]}
       /\ size members = 2%nat)
  /\ (version self ≠ version above
      /\ relation above ≠ equal
      /\ Specifier_contains Debian.version_compare self (version above) = true
      /\ points (relation self) = Some Lower
      /\ points (relation above) = Some Lower
      /\ Specifier_intersection Debian.version_compare self (PSpecifier above)
         = Returns {[ above ]}).
Proof.
  intros self other above.
  assert (version self ≠ version other) as H1 by discriminate.
  assert (relation self ≠ equal) as H2 by discriminate.
  assert (relation other ≠ equal) as H3 by discriminate.
  assert (Specifier_contains Debian.version_compare self (version other) = true)
    as H4 by reflexivity.
  assert (points (relation self) ≠ points (relation other)) as H5
    by discriminate.
  assert (version self ≠ version above) as H6 by discriminate.
  assert (relation above ≠ equal) as H7 by discriminate.
  assert (Specifier_contains Debian.version_compare self (version above) = true)
    as H8 by reflexivity.
  split.
  - exact (conj H1 (conj H2 (conj H3 (conj H4 (conj H5
             (proj2 (proj2 (overlapping_bounds Debian.version_compare
                              self other H1 H2 H3 (or_introl H4))) H5)))))).
  - exact (conj H6 (conj H7 (conj H8 (conj eq_refl (conj eq_refl
             (proj1 (overlapping_bounds Debian.version_compare
                       self above H6 H2 H7 (or_introl H8))
                    eq_refl eq_refl)))))).
Defined.

Lemma SpecifierSet_contains_all_example :
  let self : SpecifierSet :=
    {[ mkSpecifier greater_or_equal_than "2.2"; mkSpecifier lower_than "2.3" ]} in
  (forall s, s ∈ self -> Specifier_contains Debian.version_compare s "2.2.1" = true)
  /\ SpecifierSet_contains Debian.version_compare self "2.2.1" = true
  /\ SpecifierSet_contains Debian.version_compare self "2.4" = false.
Proof.
  intros self.
  assert (forall s, s ∈ self ->
            Specifier_contains Debian.version_compare s "2.2.1" = true) as H.
  { intros s Hs. apply elem_of_union in Hs as [Hs|Hs];
      apply elem_of_singleton in Hs; subst s; reflexivity. }
  exact (conj H (conj
           (proj2 (proj1 (SpecifierSet_contains_all Debian.version_compare
                            self "2.2.1")) H)
           eq_refl)).
Defined.

Lemma operations_return_example :
  let self : SpecifierSet :=
    {[ mkSpecifier greater_or_equal_than "2.2"; mkSpecifier lower_than "2.4" ]} in
  let other : SpecifierSet := {[ mkSpecifier lower_than "2.3" ]} in
  SpecifierSet_init (OfString "<< 2.3") = Returns other
  /\ SpecifierSet_intersection Debian.version_compare self (PStr "<< 2.3")
     = SpecifierSet_intersection Debian.version_compare self (PSpecifierSet other)
  /\ Debian.version_compare "3.0" "2.0" > 0
  /\ Debian.version_compare "2.0" "3.0" < 0
  /\ Specifier_intersection Debian.version_compare
       (mkSpecifier greater_or_equal_than "3.0")
       (PSpecifier (mkSpecifier lower_than "2.0"))
     = Returns ∅.
Proof.
  intros self other.
  assert (SpecifierSet_init (OfString "<< 2.3") = Returns other) as H1
    by (vm_compute; reflexivity).
  assert (Debian.version_compare "3.0" "2.0" > 0) as H2 by reflexivity.
  assert (Debian.version_compare "2.0" "3.0" < 0) as H3 by reflexivity.
  pose proof (operations_return Debian.version_compare self other)
    as (_ & _ & _ & _ & _ & Hs & He).
  exact (conj H1 (conj (proj1 (Hs _ H1)) (conj H2 (conj H3 (He H2 H3))))).
Defined.

Lemma str_reparses_example :
  let self : SpecifierSet :=
    {[ mkSpecifier greater_or_equal_than "2.2"; mkSpecifier lower_than "2.3" ]} in
  set_Forall well_formed self
  /\ SpecifierSet_str self = "<<2.3,>=2.2"
  /\ SpecifierSet_init (OfString (SpecifierSet_str self)) = Returns self.
Proof.
  intros self.
  assert (set_Forall well_formed self) as H.
  { intros s Hs. apply elem_of_union in Hs as [Hs|Hs];
      apply elem_of_singleton in Hs; subst s; reflexivity. }
  assert (SpecifierSet_str self = "<<2.3,>=2.2") as Hstr
    by (vm_compute; reflexivity).
  exact (conj H (conj Hstr (proj1 (str_reparses self H)))).
Defined.


(** * Further properties of the module *)

(** ** The constructor of [Specifier] *)

(** X1: the constructor takes exactly the strings made of whitespace, a
    relation, whitespace, a run of version characters and whitespace, and
    returns the relation and the run; any other string raises
    [InvalidSpecifier] with a message that quotes it. *)
Theorem Specifier_init_grammar (spec : string) :
  (forall rel v,
     Regex.matches spec rel v ->
     Specifier_init (PStr spec) = Returns (mkSpecifier rel v))
  /\ ((forall rel v, ~ Regex.matches spec rel v) ->
      Specifier_init (PStr spec)
      = Raises (InvalidSpecifier ("Invalid specifier: '" ++ spec ++ "'"))).
Proof.
  split.
  - apply Specifier_of_string_matches.
  - intros H. simpl. unfold Specifier_of_string.
    destruct (Regex.search spec) as [[rel v]|] eqn:E; [|reflexivity].
    apply search_matches in E. destruct (H rel v E).
Qed.

Lemma Specifier_init_grammar_example :
  Regex.matches "  >=  2.2 " greater_or_equal_than "2.2"
  /\ Specifier_init (PStr "  >=  2.2 ")
     = Returns (mkSpecifier greater_or_equal_than "2.2")
  /\ (forall rel v, ~ Regex.matches ">= 1 2" rel v)
  /\ Specifier_init (PStr ">= 1 2")
     = Raises (InvalidSpecifier "Invalid specifier: '>= 1 2'").
Proof.
  assert (Regex.matches "  >=  2.2 " greater_or_equal_than "2.2") as H1.
  { exists "  ", "  ", " ". repeat split. }
  assert (forall rel v, ~ Regex.matches ">= 1 2" rel v) as H2.
  { intros rel v H. apply search_matches in H. discriminate H. }
  exact (conj H1 (conj (proj1 (Specifier_init_grammar "  >=  2.2 ") _ _ H1)
          (conj H2 (proj2 (Specifier_init_grammar ">= 1 2") H2)))).
Defined.

(** X2: printing a specifier that the constructor returned and parsing the text
    gives the same specifier: the text is the input without its
    whitespace. *)
Theorem Specifier_str_normalises (spec : string) (s : Specifier) :
  Specifier_init (PStr spec) = Returns s ->
  Specifier_init (PStr (Specifier_str s)) = Returns s
  /\ Regex.matches spec (relation s) (version s).
Proof.
  simpl. intros H. split.
  - apply Specifier_of_string_str. eapply Specifier_of_string_well_formed, H.
  - unfold Specifier_of_string in H.
    destruct (Regex.search spec) as [[rel v]|] eqn:E; [|discriminate].
    apply search_matches in E. pose proof E as (ws1 & ws2 & ws3 & _ & _ & Hv & _).
    rewrite strip_no_space in H
      by (eapply excludes_weaken; [apply version_char_no_space|exact Hv]).
    injection H as <-. exact E.
Qed.

Lemma Specifier_str_normalises_example :
  Specifier_init (PStr " <<   2.3  ") = Returns (mkSpecifier lower_than "2.3")
  /\ Specifier_str (mkSpecifier lower_than "2.3") = "<<2.3"
  /\ Specifier_init (PStr "<<2.3") = Returns (mkSpecifier lower_than "2.3").
Proof.
  assert (Specifier_init (PStr " <<   2.3  ")
          = Returns (mkSpecifier lower_than "2.3")) as H by reflexivity.
  exact (conj H (conj eq_refl
           (proj1 (Specifier_str_normalises " <<   2.3  " _ H)))).
Defined.

(** ** Equality and inequality *)

(** X3: [__ne__] answers the opposite of [__eq__] on every operand, for
    specifiers and for sets: the negated truth value, [NotImplemented] or
    the same exception. *)
Theorem ne_negates_eq (self : Specifier) (set : SpecifierSet) (other : pyobj) :
  Specifier_ne self other = outcome_map negb (Specifier_eq self other)
  /\ SpecifierSet_ne set other = outcome_map negb (SpecifierSet_eq set other).
Proof.
  unfold Specifier_ne, Specifier_eq, SpecifierSet_ne, SpecifierSet_eq,
    outcome_map.
  split.
  - destruct other as [s|o|o|]; try reflexivity.
    destruct (except_InvalidSpecifier _); reflexivity.
  - destruct other as [s|o|o|]; try reflexivity.
    + destruct (SpecifierSet_init _); reflexivity.
    + destruct (SpecifierSet_init _); reflexivity.
Qed.

(** X4: a set is equal to a specifier that the parser can have produced
    exactly when that specifier is its only member. *)
Theorem SpecifierSet_eq_specifier (self : SpecifierSet) (other : Specifier) :
  well_formed other ->
  SpecifierSet_eq self (PSpecifier other)
  = Returns (bool_decide (self = {[ other ]})).
Proof.
  intros H. unfold SpecifierSet_eq.
  change (Specifier_str other)
    with (Str.join "," (map Specifier_str [other])).
  rewrite SpecifierSet_init_join by (repeat constructor; exact H).
  change (Returns (bool_decide (self = {[ other ]} ∪ ∅))
          = Returns (bool_decide (self = {[ other ]}))).
  rewrite (right_id_L ∅ (∪)). reflexivity.
Qed.

Lemma SpecifierSet_eq_specifier_example :
  let other := mkSpecifier greater_or_equal_than "2.2" in
  well_formed other
  /\ SpecifierSet_eq {[ other ]} (PSpecifier other) = Returns true
  /\ SpecifierSet_eq ∅ (PSpecifier other) = Returns false.
Proof.
  intros other.
  assert (well_formed other) as H by reflexivity.
  exact (conj H (conj (SpecifierSet_eq_specifier {[ other ]} other H)
                      (SpecifierSet_eq_specifier ∅ other H))).
Defined.

Section Containment.

Variable version_compare : string -> string -> Z.

Local Abbreviation contains := (Specifier_contains version_compare).
Local Abbreviation set_contains := (SpecifierSet_contains version_compare).
Local Abbreviation intersection := (Specifier_intersection version_compare).
Local Abbreviation result := (intersection_result version_compare).

(** ** The five relations on one threshold *)

(** X5: whatever the comparison answers, a version is in exactly one of [<<v],
    [=v] and [>>v]; [<=v] is [<<v] or [=v], [>=v] is [>>v] or [=v], and
    [<<v] and [>=v], like [>>v] and [<=v], are complements. *)
Theorem relations_partition (v item : string) :
  let holds rel := contains (mkSpecifier rel v) item in
  (holds lower_than && negb (holds equal) && negb (holds greater_than)
   || negb (holds lower_than) && holds equal && negb (holds greater_than)
   || negb (holds lower_than) && negb (holds equal) && holds greater_than)
  = true
  /\ holds lower_or_equal_than = holds lower_than || holds equal
  /\ holds greater_or_equal_than = holds greater_than || holds equal
  /\ holds lower_than = negb (holds greater_or_equal_than)
  /\ holds greater_than = negb (holds lower_or_equal_than).
Proof.
  intros holds. subst holds. unfold Specifier_contains. simpl. unfold_compare.
  destruct (sign_cases (version_compare item v))
    as [(C1 & C2 & C3 & C4 & C5 & _)|[(C1 & C2 & C3 & C4 & C5 & _)
                                     |(C1 & C2 & C3 & C4 & C5 & _)]];
    rewrite C1, C2, C3, C4, C5; repeat split.
Qed.

(** ** What an intersection is made of *)

Lemma set_contains_forall (self : SpecifierSet) (item : string) :
  set_contains self item = true
  <-> forall s, s ∈ self -> contains s item = true.
Proof.
  unfold SpecifierSet_contains. rewrite forallb_forall. split.
  - intros H s Hs. apply H. apply list_elem_of_In, elem_of_elements, Hs.
  - intros H s Hs. apply H. apply elem_of_elements, list_elem_of_In, Hs.
Qed.

Lemma result_members (a b : Specifier) (l : list Specifier) :
  result a b = Some l -> forall x, x ∈ l -> x = a \/ x = b.
Proof.
  unfold intersection_result. intros E x Hx.
  repeat match type of E with
         | context [if ?c then _ else _] => destruct c
         end;
    try discriminate; injection E as <-;
    repeat match goal with
           | H : _ ∈ _ :: _ |- _ => apply elem_of_cons in H as [->|H]
           | H : _ ∈ [] |- _ => inversion H
           end; auto.
Qed.

Lemma intersection_from_operands (a b x : Specifier) :
  x ∈ (list_to_set (default [] (result a b)) : SpecifierSet) ->
  x = a \/ x = b.
Proof.
  intros Hx. apply elem_of_list_to_set in Hx.
  destruct (result a b) as [l|] eqn:E; [|inversion Hx].
  eapply result_members; eassumption.
Qed.

(** X6: the intersection of two specifiers has no member but the two
    specifiers, so it contains every version that both contain; a specifier
    intersected with itself gives itself. *)
Theorem Specifier_intersection_members (a b : Specifier) :
  exists r : SpecifierSet,
    intersection a (PSpecifier b) = Returns r
    /\ r ⊆ {[ a; b ]}
    /\ (forall item,
          contains a item = true ->
          contains b item = true ->
          set_contains r item = true)
    /\ intersection a (PSpecifier a) = Returns {[ a ]}.
Proof.
  exists (list_to_set (default [] (result a b))).
  split; [apply intersection_returns|].
  pose proof (intersection_from_operands a b) as Hm.
  split; [|split].
  - intros x Hx. destruct (Hm x Hx) as [->| ->].
    + apply elem_of_union_l, elem_of_singleton. reflexivity.
    + apply elem_of_union_r, elem_of_singleton. reflexivity.
  - intros item Ha Hb. apply set_contains_forall.
    intros x Hx. destruct (Hm x Hx) as [->| ->]; assumption.
  - apply intersection_singleton. unfold intersection_result.
    rewrite bool_decide_eq_true_2; reflexivity.
Qed.

(** ** String operands of a specifier *)

(** X7: [Specifier.intersection] and [Specifier.union] never raise on a string:
    a string that parses stands for its specifier, and for one that does
    not the methods return [NotImplemented]. The union of two specifiers is
    the set of the two. *)
Theorem Specifier_string_operand (self : Specifier) (s : string) :
  (forall other,
     Specifier_init (PStr s) = Returns other ->
     intersection self (PStr s) = intersection self (PSpecifier other)
     /\ Specifier_union self (PStr s) = Returns {[ self; other ]})
  /\ (forall message,
        Specifier_init (PStr s) = Raises (InvalidSpecifier message) ->
        intersection self (PStr s) = ReturnsNotImplemented
        /\ Specifier_union self (PStr s) = ReturnsNotImplemented).
Proof.
  unfold Specifier_intersection, Specifier_union. split.
  - intros other ->. split; [reflexivity|].
    change (SpecifierSet_init (OfItems (map PSpecifier [self; other]))
            = Returns {[ self; other ]}).
    rewrite SpecifierSet_init_specifiers. simpl.
    rewrite (right_id_L ∅ (∪)). reflexivity.
  - intros message ->. split; reflexivity.
Qed.

(** ** The union of two sets *)

(** X8: the union of two sets has the members of both, and [contains] asks all
    of them: a version is in the union exactly when it is in both
    operands. *)
Theorem SpecifierSet_union_conjunction (a b : SpecifierSet) (item : string) :
  exists u : SpecifierSet,
    SpecifierSet_union a (PSpecifierSet b) = Returns u
    /\ (forall s, s ∈ u <-> s ∈ a \/ s ∈ b)
    /\ set_contains u item = set_contains a item && set_contains b item.
Proof.
  exists (a ∪ b). split; [reflexivity|]. split.
  - intros s. apply elem_of_union.
  - apply eq_true_iff_eq. rewrite andb_true_iff, !set_contains_forall.
    split.
    + intros H. split; intros s Hs; apply H, elem_of_union; auto.
    + intros [Ha Hb] s Hs. apply elem_of_union in Hs as [Hs|Hs]; auto.
Qed.

(** ** What the intersection of two sets is made of *)

Lemma intersect_each_members (specifier : Specifier) (l : list Specifier)
    (parsed r : SpecifierSet) :
  intersect_each version_compare specifier l parsed = Returns r ->
  forall x, x ∈ r -> x ∈ parsed \/ x ∈ l \/ x = specifier.
Proof.
  revert parsed. induction l as [|spec l IH]; intros parsed; simpl.
  - intros [= <-] x Hx. auto.
  - rewrite intersection_returns. simpl.
    pose proof (intersection_from_operands spec specifier) as Hm.
    destruct (SpecifierSet_len _ =? 0)%nat.
    + intros [= <-] x Hx. apply elem_of_empty in Hx as [].
    + intros H x Hx. destruct (IH _ H x Hx) as [Hp|[Hl| ->]]; auto.
      * apply elem_of_union in Hp as [Hp|Hp]; auto.
        apply Hm in Hp as [->| ->]; auto.
        right. left. apply elem_of_cons. auto.
      * right. left. apply elem_of_cons. auto.
Qed.

Lemma intersect_all_members (specifiers l r : list Specifier) :
  intersect_all version_compare specifiers l = Returns r ->
  forall x, x ∈ r -> x ∈ l \/ x ∈ specifiers.
Proof.
  revert l. induction specifiers as [|specifier rest IH]; intros l; simpl.
  - intros [= <-] x Hx. auto.
  - destruct (intersect_each_returns version_compare specifier l ∅)
      as [parsed E]. rewrite E. simpl.
    destruct (elements parsed) as [|y ys] eqn:El.
    + intros [= <-] x Hx. inversion Hx.
    + intros H x Hx. destruct (IH _ H x Hx) as [Hp|Hr].
      * rewrite <- El in Hp. apply elem_of_elements in Hp.
        destruct (intersect_each_members _ _ _ _ E x Hp) as [He|[Hl| ->]].
        -- apply elem_of_empty in He as [].
        -- auto.
        -- right. apply elem_of_cons. auto.
      * right. apply elem_of_cons. auto.
Qed.

Lemma intersection_in_order_members (order : list Specifier) (r : SpecifierSet) :
  intersection_in_order version_compare order = Returns r ->
  forall x, x ∈ r -> x ∈ order.
Proof.
  destruct order as [|seed rest]; simpl.
  - intros [= <-] x Hx. apply elem_of_empty in Hx as [].
  - destruct (intersect_all_returns version_compare rest [seed]) as [l E].
    rewrite E. simpl. rewrite SpecifierSet_init_specifiers.
    intros [= <-] x Hx. apply elem_of_list_to_set in Hx.
    destruct (intersect_all_members _ _ _ E x Hx) as [Hs|Hr].
    + apply elem_of_cons. left. apply list_elem_of_singleton in Hs. exact Hs.
    + apply elem_of_cons. auto.
Qed.

(** X9: in whatever order the pooled members are enumerated, the intersection
    of two sets has no member that is in neither of them, so it contains
    every version that both contain. *)
Theorem SpecifierSet_intersection_members (a b : SpecifierSet)
    (order : list Specifier) :
  order ≡ₚ elements (a ∪ b) ->
  exists r : SpecifierSet,
    intersection_in_order version_compare order = Returns r
    /\ r ⊆ a ∪ b
    /\ (forall item,
          set_contains a item = true ->
          set_contains b item = true ->
          set_contains r item = true).
Proof.
  intros Hperm.
  destruct (intersection_in_order_returns version_compare order) as [r E].
  exists r. split; [exact E|].
  assert (r ⊆ a ∪ b) as Hsub.
  { intros x Hx. apply elem_of_elements. rewrite <- Hperm.
    eapply intersection_in_order_members; eassumption. }
  split; [exact Hsub|].
  intros item Ha Hb. apply set_contains_forall. intros x Hx.
  apply Hsub, elem_of_union in Hx as [Hx|Hx].
  - apply (proj1 (set_contains_forall a item) Ha x Hx).
  - apply (proj1 (set_contains_forall b item) Hb x Hx).
Qed.

(** ** Small pools *)

(** X10: when the two operands have at most one member together, the
    intersection is that pool: so for a set of one member with itself or
    with the empty set, and for two empty sets. *)
Theorem SpecifierSet_intersection_small (a b : SpecifierSet) :
  (size (a ∪ b) <= 1)%nat ->
  SpecifierSet_intersection version_compare a (PSpecifierSet b)
  = Returns (a ∪ b).
Proof.
  intros Hsize. unfold SpecifierSet_intersection. simpl.
  rewrite <- (list_to_set_elements_L (a ∪ b)) at 2.
  unfold size, set_size in Hsize. simpl in Hsize.
  destruct (elements (a ∪ b)) as [|x [|y l]]; simpl in Hsize.
  - reflexivity.
  - apply (SpecifierSet_init_specifiers [x]).
  - lia.
Qed.

(** The pool of two specifiers, the first as the seed: the intersection of
    the sets is the intersection of the specifiers. *)
Lemma pair_pool (a b : Specifier) :
  intersection_in_order version_compare [a; b] = intersection a (PSpecifier b).
Proof.
  unfold intersection_in_order, intersect_all, intersect_each.
  rewrite intersection_returns.
  set (inter := list_to_set (default [] (result a b)) : SpecifierSet).
  simpl. destruct (SpecifierSet_len inter =? 0)%nat eqn:Hlen.
  - simpl. rewrite elements_empty. simpl.
    apply Nat.eqb_eq, size_empty_inv, leibniz_equiv in Hlen.
    rewrite Hlen. reflexivity.
  - simpl. rewrite (left_id_L ∅ (∪)).
    transitivity (SpecifierSet_init (OfItems (map PSpecifier (elements inter)))).
    + destruct (elements inter); reflexivity.
    + rewrite SpecifierSet_init_specifiers, list_to_set_elements_L.
      reflexivity.
Qed.

(** X11: outside the ties that [Specifier.intersection] does not tell apart, two
    specifiers intersect in the same set in both orders, and so do their
    singleton sets in both enumerations of the pool: when the comparison is
    antisymmetric on the two versions, different version strings do not
    compare equal, and two bounds on one version string point in the same
    direction. *)
Theorem intersection_commutes_outside_ties (a b : Specifier) :
  (version_compare (version a) (version b) > 0
   <-> version_compare (version b) (version a) < 0) ->
  (version_compare (version a) (version b) < 0
   <-> version_compare (version b) (version a) > 0) ->
  (version a ≠ version b ->
   version_compare (version a) (version b) ≠ 0) ->
  (version a = version b ->
   points (relation a) = points (relation b)
   \/ relation a = equal \/ relation b = equal) ->
  intersection a (PSpecifier b) = intersection b (PSpecifier a)
  /\ intersection_in_order version_compare [a; b]
     = intersection_in_order version_compare [b; a].
Proof.
  intros H1 H2 H3 H4.
  pose proof (intersection_commutes version_compare a b H1 H2 H3 H4) as E.
  split; [exact E|]. rewrite !pair_pool. exact E.
Qed.

(** ** Where the intersection of two specifiers is exact *)

Lemma result_exact (a b : Specifier) (item : string) :
  ordered_on version_compare [item; version a; version b] ->
  (version a ≠ version b -> version_compare (version a) (version b) ≠ 0) ->
  (version a = version b ->
   points (relation a) = points (relation b)
   \/ relation a = equal \/ relation b = equal) ->
  match default [] (result a b) with
  | [] => contains a item && contains b item = false
  | l => forallb (fun s => contains s item) l
         = contains a item && contains b item
  end.
Proof.
  intros [L1 L2] H3 H4.
  destruct (decide (a = b)) as [->|Hne].
  { unfold intersection_result. rewrite bool_decide_eq_true_2 by reflexivity.
    simpl. destruct (contains b item); reflexivity. }
  unfold intersection_result.
  rewrite (bool_decide_eq_false_2 (_ = _ :> Specifier)) by congruence.
  destruct a as [r1 v1], b as [r2 v2]; simpl in *.
  assert (item ∈ [item; v1; v2]) as I0 by (apply elem_of_cons; auto).
  assert (v1 ∈ [item; v1; v2]) as I1
    by (apply elem_of_cons; right; apply elem_of_cons; auto).
  assert (v2 ∈ [item; v1; v2]) as I2
    by (do 2 (apply elem_of_cons; right); apply elem_of_cons; auto).
  pose proof (L1 item v1 I0 I1). pose proof (L1 item v2 I0 I2).
  pose proof (L1 v1 v2 I1 I2). pose proof (L1 v1 item I1 I0).
  pose proof (L1 v2 item I2 I0). pose proof (L1 v2 v1 I2 I1).
  pose proof (L1 v1 v1 I1 I1). pose proof (L1 v2 v2 I2 I2).
  pose proof (L2 item v1 v2 I0 I1 I2). pose proof (L2 item v2 v1 I0 I2 I1).
  pose proof (L2 v1 item v2 I1 I0 I2). pose proof (L2 v1 v2 item I1 I2 I0).
  pose proof (L2 v2 item v1 I2 I0 I1). pose proof (L2 v2 v1 item I2 I1 I0).
  clear L1 L2 I0 I1 I2.
  unfold Specifier_contains; simpl.
  destruct (decide (v1 = v2)) as [->|Hv].
  - rewrite !(bool_decide_eq_true_2 (v2 = v2)) by reflexivity. clear H3.
    specialize (H4 eq_refl). unfold_compare.
    destruct (sign_cases (version_compare item v2))
      as [(C1 & C2 & C3 & C4 & C5 & C6)|[(C1 & C2 & C3 & C4 & C5 & C6)
                                        |(C1 & C2 & C3 & C4 & C5 & C6)]];
    destruct (sign_cases (version_compare v2 v2))
      as [(D1 & D2 & D3 & D4 & D5 & D6)|[(D1 & D2 & D3 & D4 & D5 & D6)
                                        |(D1 & D2 & D3 & D4 & D5 & D6)]];
    try lia;
    destruct r1, r2;
    try (destruct H4 as [H4|[H4|H4]]; discriminate);
    try congruence;
    do 2 (simpl; unfold_compare;
          rewrite ?C1, ?C2, ?C3, ?C4, ?C5, ?D1, ?D2, ?D3, ?D4, ?D5);
    reflexivity.
  - rewrite !(bool_decide_eq_false_2 (v1 = v2)) by assumption.
    specialize (H3 Hv). clear H4. unfold_compare.
    destruct (sign_cases (version_compare v1 v2))
      as [(E1 & E2 & E3 & E4 & E5 & E6)|[(E1 & E2 & E3 & E4 & E5 & E6)
                                        |(E1 & E2 & E3 & E4 & E5 & E6)]];
    try lia;
    destruct (sign_cases (version_compare v2 v1))
      as [(F1 & F2 & F3 & F4 & F5 & F6)|[(F1 & F2 & F3 & F4 & F5 & F6)
                                        |(F1 & F2 & F3 & F4 & F5 & F6)]];
    try lia;
    destruct (sign_cases (version_compare item v1))
      as [(C1 & C2 & C3 & C4 & C5 & C6)|[(C1 & C2 & C3 & C4 & C5 & C6)
                                        |(C1 & C2 & C3 & C4 & C5 & C6)]];
    destruct (sign_cases (version_compare item v2))
      as [(D1 & D2 & D3 & D4 & D5 & D6)|[(D1 & D2 & D3 & D4 & D5 & D6)
                                        |(D1 & D2 & D3 & D4 & D5 & D6)]];
    try lia;
    destruct r1, r2;
    do 2 (simpl; unfold_compare;
          rewrite ?C1, ?C2, ?C3, ?C4, ?C5, ?D1, ?D2, ?D3, ?D4, ?D5,
            ?E1, ?E2, ?E3, ?E4, ?E5, ?F1, ?F2, ?F3, ?F4, ?F5);
    reflexivity.
Qed.

Lemma set_contains_list_to_set (l : list Specifier) (item : string) :
  set_contains (list_to_set l) item = forallb (fun s => contains s item) l.
Proof.
  apply eq_true_iff_eq. rewrite set_contains_forall, forallb_forall. split.
  - intros H s Hs. apply H, elem_of_list_to_set, list_elem_of_In, Hs.
  - intros H s Hs. apply elem_of_list_to_set, list_elem_of_In in Hs.
    apply H, Hs.
Qed.

(** X12: outside the ties that the branches do not tell apart, the intersection
    of two specifiers is exact for every version that the comparison
    orders with the two thresholds: when it is not empty it contains the
    version exactly when both specifiers do, and when it is empty no such
    version is in both. The ties are two bounds of opposite directions on
    one version string, and different version strings that compare
    equal. *)
Theorem Specifier_intersection_exact (a b : Specifier) (item : string) :
  ordered_on version_compare [item; version a; version b] ->
  (version a ≠ version b -> version_compare (version a) (version b) ≠ 0) ->
  (version a = version b ->
   points (relation a) = points (relation b)
   \/ relation a = equal \/ relation b = equal) ->
  exists r : SpecifierSet,
    intersection a (PSpecifier b) = Returns r
    /\ (r ≠ ∅ ->
        set_contains r item = contains a item && contains b item)
    /\ (r = ∅ -> contains a item && contains b item = false).
Proof.
  intros H1 H2 H3. pose proof (result_exact a b item H1 H2 H3) as E.
  exists (list_to_set (default [] (result a b))).
  split; [apply intersection_returns|].
  destruct (default [] (result a b)) as [|x l].
  - split; [intros H; destruct H; reflexivity|intros _; exact E].
  - split.
    + intros _. rewrite set_contains_list_to_set. exact E.
    + intros H. assert (x ∈ (∅ : SpecifierSet)) as F
        by (rewrite <- H; apply elem_of_list_to_set, elem_of_cons; auto).
      apply elem_of_empty in F as [].
Qed.

End Containment.

Lemma Specifier_intersection_members_example :
  let a := mkSpecifier greater_or_equal_than "2.2" in
  let b := mkSpecifier lower_than "2.3" in
  Specifier_contains Debian.version_compare a "2.2.5" = true
  /\ Specifier_contains Debian.version_compare b "2.2.5" = true
  /\ exists r : SpecifierSet,
      Specifier_intersection Debian.version_compare a (PSpecifier b) = Returns r
      /\ SpecifierSet_contains Debian.version_compare r "2.2.5" = true.
Proof.
  intros a b.
  assert (Specifier_contains Debian.version_compare a "2.2.5" = true) as Ha
    by reflexivity.
  assert (Specifier_contains Debian.version_compare b "2.2.5" = true) as Hb
    by reflexivity.
  split; [exact Ha|]. split; [exact Hb|].
  destruct (Specifier_intersection_members Debian.version_compare a b) as (r & Hr & _ & Hc & _).
  exists r. exact (conj Hr (Hc _ Ha Hb)).
Defined.

Lemma Specifier_string_operand_example :
  let self := mkSpecifier greater_or_equal_than "2.2" in
  let other := mkSpecifier lower_than "2.3" in
  Specifier_init (PStr "<< 2.3") = Returns other
  /\ Specifier_union self (PStr "<< 2.3") = Returns {[ self; other ]}
  /\ Specifier_init (PStr "2.3")
     = Raises (InvalidSpecifier "Invalid specifier: '2.3'")
  /\ Specifier_intersection Debian.version_compare self (PStr "2.3")
     = ReturnsNotImplemented.
Proof.
  intros self other.
  assert (Specifier_init (PStr "<< 2.3") = Returns other) as H1 by reflexivity.
  assert (Specifier_init (PStr "2.3")
          = Raises (InvalidSpecifier "Invalid specifier: '2.3'")) as H2
    by reflexivity.
  exact (conj H1 (conj
    (proj2 (proj1 (Specifier_string_operand Debian.version_compare
                     self "<< 2.3") _ H1))
    (conj H2
    (proj1 (proj2 (Specifier_string_operand Debian.version_compare
                     self "2.3") _ H2))))).
Defined.

Lemma SpecifierSet_intersection_members_example :
  let a : SpecifierSet :=
    {[ mkSpecifier greater_or_equal_than "2.2"; mkSpecifier lower_than "2.4" ]} in
  let b : SpecifierSet := {[ mkSpecifier lower_than "2.3" ]} in
  elements (a ∪ b) ≡ₚ elements (a ∪ b)
  /\ SpecifierSet_contains Debian.version_compare a "2.2.5" = true
  /\ SpecifierSet_contains Debian.version_compare b "2.2.5" = true
  /\ exists r : SpecifierSet,
      intersection_in_order Debian.version_compare (elements (a ∪ b)) = Returns r
      /\ r ⊆ a ∪ b
      /\ SpecifierSet_contains Debian.version_compare r "2.2.5" = true.
Proof.
  intros a b.
  assert (elements (a ∪ b) ≡ₚ elements (a ∪ b)) as H by reflexivity.
  assert (SpecifierSet_contains Debian.version_compare a "2.2.5" = true) as Ha
    by (vm_compute; reflexivity).
  assert (SpecifierSet_contains Debian.version_compare b "2.2.5" = true) as Hb
    by (vm_compute; reflexivity).
  split; [exact H|]. split; [exact Ha|]. split; [exact Hb|].
  destruct (SpecifierSet_intersection_members Debian.version_compare a b _ H)
    as (r & Hr & Hsub & Hc).
  exists r. exact (conj Hr (conj Hsub (Hc _ Ha Hb))).
Defined.

Lemma SpecifierSet_intersection_small_example :
  let x := mkSpecifier greater_or_equal_than "2.2" in
  (size (({[ x ]} : SpecifierSet) ∪ ∅) <= 1)%nat
  /\ SpecifierSet_intersection Debian.version_compare {[ x ]} (PSpecifierSet ∅)
     = Returns ({[ x ]} ∪ ∅)
  /\ (size (({[ x ]} : SpecifierSet) ∪ {[ x ]}) <= 1)%nat
  /\ SpecifierSet_intersection Debian.version_compare {[ x ]}
       (PSpecifierSet {[ x ]})
     = Returns ({[ x ]} ∪ {[ x ]}).
Proof.
  intros x.
  assert (size (({[ x ]} : SpecifierSet) ∪ ∅) <= 1)%nat as H1
    by (vm_compute; lia).
  assert (size (({[ x ]} : SpecifierSet) ∪ {[ x ]}) <= 1)%nat as H2
    by (vm_compute; lia).
  exact (conj H1 (conj
    (SpecifierSet_intersection_small Debian.version_compare _ _ H1)
    (conj H2
    (SpecifierSet_intersection_small Debian.version_compare _ _ H2)))).
Defined.

Lemma intersection_commutes_outside_ties_example :
  let a := mkSpecifier greater_or_equal_than "2.2" in
  let b := mkSpecifier greater_than "2.2.1" in
  (Debian.version_compare (version a) (version b) > 0
   <-> Debian.version_compare (version b) (version a) < 0)
  /\ (Debian.version_compare (version a) (version b) < 0
      <-> Debian.version_compare (version b) (version a) > 0)
  /\ (version a ≠ version b ->
      Debian.version_compare (version a) (version b) ≠ 0)
  /\ (version a = version b ->
      points (relation a) = points (relation b)
      \/ relation a = equal \/ relation b = equal)
  /\ Specifier_intersection Debian.version_compare a (PSpecifier b)
     = Specifier_intersection Debian.version_compare b (PSpecifier a)
  /\ intersection_in_order Debian.version_compare [a; b]
     = intersection_in_order Debian.version_compare [b; a].
Proof.
  intros a b.
  assert (Debian.version_compare (version a) (version b) > 0
          <-> Debian.version_compare (version b) (version a) < 0) as H1
    by (split; discriminate).
  assert (Debian.version_compare (version a) (version b) < 0
          <-> Debian.version_compare (version b) (version a) > 0) as H2
    by (split; reflexivity).
  assert (version a ≠ version b ->
          Debian.version_compare (version a) (version b) ≠ 0) as H3
    by discriminate.
  assert (version a = version b ->
          points (relation a) = points (relation b)
          \/ relation a = equal \/ relation b = equal) as H4
    by discriminate.
  exact (conj H1 (conj H2 (conj H3 (conj H4
    (intersection_commutes_outside_ties Debian.version_compare a b
       H1 H2 H3 H4))))).
Defined.

(** ** The constructor of [SpecifierSet] on a string *)

Lemma split_blank (s : string) :
  blank s -> Forall Regex.spaces (Str.split "," s).
Proof.
  unfold blank, Regex.spaces. induction s as [|c s IH]; simpl.
  - intros _. repeat constructor.
  - rewrite andb_true_iff, negb_true_iff, negb_false_iff, orb_true_iff.
    intros [Hc Hs]. specialize (IH Hs).
    destruct (Ascii.eqb c ",") eqn:E; [constructor; [reflexivity|exact IH]|].
    destruct Hc as [Hc|Hc]; [|discriminate].
    destruct (split_cons "," s) as (piece & rest & Es). rewrite Es in *.
    inversion IH as [|? ? Hp Hr]; subst. constructor; [|exact Hr].
    simpl. rewrite Hc. exact Hp.
Qed.

Lemma strip_spaces (s : string) :
  Regex.spaces s -> Str.is_empty (Str.strip s) = true.
Proof.
  intros H. apply lstrip_empty in H. unfold Str.strip.
  destruct (Str.lstrip s); [reflexivity|discriminate].
Qed.

(** X13: a string of whitespace and commas only, the empty string among them,
    gives the empty set, which contains every version. *)
Theorem SpecifierSet_init_blank (s : string) :
  blank s ->
  SpecifierSet_init (OfString s) = Returns ∅
  /\ forall version_compare item,
       (r ← SpecifierSet_init (OfString s);
        mret (SpecifierSet_contains version_compare r item))
       = Returns true.
Proof.
  intros H.
  assert (pieces s = []) as E.
  { unfold pieces. apply split_blank in H.
    induction H as [|piece l Hp _ IH]; [reflexivity|].
    cbn [List.filter]. rewrite strip_spaces by exact Hp. exact IH. }
  unfold SpecifierSet_init. rewrite E. split; [reflexivity|].
  intros version_compare item. reflexivity.
Qed.

Lemma SpecifierSet_init_blank_example :
  blank " , ,, "
  /\ SpecifierSet_init (OfString " , ,, ") = Returns ∅.
Proof.
  assert (blank " , ,, ") as H by reflexivity.
  exact (conj H (proj1 (SpecifierSet_init_blank " , ,, " H))).
Defined.

Lemma parse_each_strings_returns (l : list string) (specs : list Specifier)
    (parsed : SpecifierSet) :
  Forall2 (fun piece s => Specifier_init (PStr piece) = Returns s) l specs ->
  parse_each (map PStr l) parsed = Returns (parsed ∪ list_to_set specs).
Proof.
  intros H. revert parsed.
  induction H as [|piece s l specs Hs _ IH]; intros parsed; simpl.
  - f_equal. symmetry. apply (right_id_L ∅ (∪)).
  - simpl in Hs. rewrite Hs. simpl. rewrite IH. f_equal.
    symmetry. apply (assoc_L (∪)).
Qed.

Lemma parse_each_strings_first_invalid (good : list string) (bad : string)
    (rest : list string) (parsed : SpecifierSet) :
  Forall (fun piece => Regex.search piece ≠ None) good ->
  Regex.search bad = None ->
  parse_each (map PStr (good ++ bad :: rest)) parsed = Raises (invalid bad).
Proof.
  intros Hgood Hbad. revert parsed.
  induction Hgood as [|piece good Hp _ IH]; intros parsed; simpl.
  - unfold Specifier_of_string. rewrite Hbad. reflexivity.
  - unfold Specifier_of_string at 1.
    destruct (Regex.search piece) as [[rel v]|]; [|congruence].
    simpl. apply IH.
Qed.

(** X14: the constructor parses the pieces of the string, which are what is
    left between the commas once stripped and not empty. If all of them are
    specifiers it returns their set, duplicates merged; otherwise it raises
    [InvalidSpecifier] for the first piece that is not one. *)
Theorem SpecifierSet_init_pieces (spec : string) :
  (forall specs,
     Forall2 (fun piece s => Specifier_init (PStr piece) = Returns s)
             (pieces spec) specs ->
     SpecifierSet_init (OfString spec) = Returns (list_to_set specs))
  /\ (forall good bad rest,
        pieces spec = (good ++ bad :: rest)%list ->
        Forall (fun piece => Regex.search piece ≠ None) good ->
        Regex.search bad = None ->
        SpecifierSet_init (OfString spec) = Raises (invalid bad)).
Proof.
  unfold SpecifierSet_init. split.
  - intros specs H. rewrite (parse_each_strings_returns _ _ _ H).
    f_equal. apply (left_id_L ∅ (∪)).
  - intros good bad rest -> Hgood Hbad.
    apply parse_each_strings_first_invalid; assumption.
Qed.

Lemma SpecifierSet_init_pieces_example :
  let ge := mkSpecifier greater_or_equal_than "2.2" in
  Forall2 (fun piece s => Specifier_init (PStr piece) = Returns s)
          (pieces " >= 2.2 ,, >=2.2") [ge; ge]
  /\ SpecifierSet_init (OfString " >= 2.2 ,, >=2.2") = Returns (list_to_set [ge; ge])
  /\ pieces ">= 2.2, 2.3, ~~1" = ([">= 2.2"] ++ "2.3" :: ["~~1"])%list
  /\ SpecifierSet_init (OfString ">= 2.2, 2.3, ~~1") = Raises (invalid "2.3").
Proof.
  intros ge.
  assert (Forall2 (fun piece s => Specifier_init (PStr piece) = Returns s)
            (pieces " >= 2.2 ,, >=2.2") [ge; ge]) as H1
    by (repeat constructor).
  assert (pieces ">= 2.2, 2.3, ~~1" = ([">= 2.2"] ++ "2.3" :: ["~~1"])%list)
    as H2 by reflexivity.
  assert (Forall (fun piece => Regex.search piece ≠ None) [">= 2.2"]) as H3
    by (repeat constructor; discriminate).
  exact (conj H1 (conj
    (proj1 (SpecifierSet_init_pieces " >= 2.2 ,, >=2.2") _ H1)
    (conj H2
    (proj2 (SpecifierSet_init_pieces ">= 2.2, 2.3, ~~1") _ _ _ H2 H3 eq_refl)))).
Defined.

(** ** The text of a set *)

Lemma le_total (s t : string) : Str.le s t \/ Str.le t s.
Proof.
  unfold Str.le. revert t. induction s as [|a s IH]; intros t.
  - left. reflexivity.
  - destruct t as [|b t]; [right; reflexivity|]. simpl.
    destruct (Nat.ltb_spec (nat_of_ascii a) (nat_of_ascii b));
      [left; reflexivity|].
    destruct (Nat.ltb_spec (nat_of_ascii b) (nat_of_ascii a));
      [right; reflexivity|].
    apply IH.
Qed.

Lemma le_trans (s t u : string) : Str.le s t -> Str.le t u -> Str.le s u.
Proof.
  unfold Str.le. revert t u. induction s as [|a s IH]; intros t u.
  - reflexivity.
  - destruct t as [|b t]; [discriminate|].
    destruct u as [|c u]; [intros _; discriminate|]. simpl.
    destruct (Nat.ltb_spec (nat_of_ascii a) (nat_of_ascii b)),
      (Nat.ltb_spec (nat_of_ascii b) (nat_of_ascii a)),
      (Nat.ltb_spec (nat_of_ascii b) (nat_of_ascii c)),
      (Nat.ltb_spec (nat_of_ascii c) (nat_of_ascii b)),
      (Nat.ltb_spec (nat_of_ascii a) (nat_of_ascii c)),
      (Nat.ltb_spec (nat_of_ascii c) (nat_of_ascii a));
      try lia; try discriminate; try reflexivity.
    apply IH.
Qed.

(** The text of a set of well-formed specifiers, cut at the commas, is the
    sorted list of the texts of its members. *)
Lemma pieces_str (self : SpecifierSet) :
  set_Forall well_formed self ->
  pieces (SpecifierSet_str self)
  = Str.sorted (map Specifier_str (elements self))
  /\ SpecifierSet_init (OfString (SpecifierSet_str self)) = Returns self.
Proof.
  intros Hwf. unfold SpecifierSet_str, Str.sorted.
  destruct (Permutation_map_inv Specifier_str (elements self)
              (merge_sort_Permutation Str.le
                 (map Specifier_str (elements self))))
    as (l & -> & Hperm).
  assert (Forall well_formed l) as Hl.
  { apply Forall_forall. intros s Hs. apply Hwf.
    apply elem_of_elements. rewrite Hperm. exact Hs. }
  split; [apply pieces_join, Hl|].
  rewrite SpecifierSet_init_join by exact Hl.
  f_equal. apply set_eq. intros s.
  rewrite elem_of_list_to_set, <- Hperm. apply elem_of_elements.
Qed.

(** X15: the text of a set is canonical: two sets of specifiers that the parser
    can have produced have the same text exactly when they are equal,
    whatever the order in which their members are enumerated. Cut at the
    commas, the text is the list of the texts of the members, each before
    all those that follow it in the order of the bytes; the text of the
    empty set is empty. *)
Theorem SpecifierSet_str_canonical (a b : SpecifierSet) :
  set_Forall well_formed a ->
  set_Forall well_formed b ->
  (SpecifierSet_str a = SpecifierSet_str b <-> a = b)
  /\ pieces (SpecifierSet_str a) ≡ₚ map Specifier_str (elements a)
  /\ StronglySorted Str.le (pieces (SpecifierSet_str a))
  /\ SpecifierSet_str ∅ = "".
Proof.
  intros Ha Hb.
  destruct (pieces_str a Ha) as [Ea Ia]. destruct (pieces_str b Hb) as [_ Ib].
  split; [|split; [|split]].
  - split; [|congruence]. intros E. rewrite E in Ia. congruence.
  - rewrite Ea. apply merge_sort_Permutation.
  - rewrite Ea. apply (@StronglySorted_merge_sort _ Str.le _).
    + intros s t u. apply le_trans.
    + intros s t. apply le_total.
  - reflexivity.
Qed.

Lemma SpecifierSet_str_canonical_example :
  let a : SpecifierSet :=
    {[ mkSpecifier greater_or_equal_than "2.2"; mkSpecifier lower_than "2.3" ]} in
  let b : SpecifierSet :=
    {[ mkSpecifier lower_than "2.3"; mkSpecifier greater_or_equal_than "2.2" ]} in
  set_Forall well_formed a
  /\ set_Forall well_formed b
  /\ SpecifierSet_str a = SpecifierSet_str b
  /\ a = b.
Proof.
  intros a b.
  assert (set_Forall well_formed a) as Ha.
  { intros s Hs. apply elem_of_union in Hs as [Hs|Hs];
      apply elem_of_singleton in Hs; subst s; reflexivity. }
  assert (set_Forall well_formed b) as Hb.
  { intros s Hs. apply elem_of_union in Hs as [Hs|Hs];
      apply elem_of_singleton in Hs; subst s; reflexivity. }
  assert (SpecifierSet_str a = SpecifierSet_str b) as E
    by (vm_compute; reflexivity).
  exact (conj Ha (conj Hb (conj E
    (proj1 (proj1 (SpecifierSet_str_canonical a b Ha Hb)) E)))).
Defined.

(** ** The state of [dpkg] *)

Lemma span_digits_app (f d rest : string) :
  span_digits f = (d, rest) -> digits d /\ f = d ++ rest.
Proof.
  unfold digits. revert d rest. induction f as [|c f IH]; intros d rest; simpl.
  - intros [= <- <-]. split; reflexivity.
  - destruct (Str.isdigit c) eqn:E.
    + destruct (span_digits f) as [d' rest'].
      destruct (IH d' rest' eq_refl) as [Hd ->].
      intros [= <- <-]. simpl. rewrite E. split; [exact Hd|reflexivity].
    + intros [= <- <-]. split; reflexivity.
Qed.

Lemma span_digits_whole (d rest : string) :
  digits d ->
  rest = EmptyString \/ rest = String "010" EmptyString ->
  span_digits (d ++ rest) = (d, rest).
Proof.
  unfold digits. intros Hd Hrest. induction d as [|c d IH]; simpl in *.
  - destruct Hrest as [-> | ->]; reflexivity.
  - apply andb_true_iff in Hd as [Hc Hd].
    rewrite negb_true_iff, negb_false_iff in Hc.
    change (String c d ++ rest) with (String c (d ++ rest)). simpl.
    rewrite Hc, IH by assumption. reflexivity.
Qed.

Lemma app_empty (s : string) : s ++ EmptyString = s.
Proof.
  induction s as [|c s IH]; [reflexivity|].
  change (String c s ++ EmptyString) with (String c (s ++ EmptyString)).
  rewrite IH. reflexivity.
Qed.

Lemma match_number_numbered (f : string) :
  match_number f = true <-> numbered f.
Proof.
  unfold match_number, numbered. split.
  - destruct (span_digits f) as [d rest] eqn:E.
    apply span_digits_app in E as [Hd ->].
    rewrite andb_true_iff, negb_true_iff, orb_true_iff. intros [Hne Hrest].
    exists d. split; [intros ->; discriminate|]. split; [exact Hd|].
    destruct Hrest as [H|H]; apply bool_decide_eq_true in H; subst rest.
    + left. apply app_empty.
    + right. reflexivity.
  - intros (d & Hne & Hd & Hf).
    assert (exists rest, (rest = EmptyString \/ rest = String "010" EmptyString)
                         /\ f = d ++ rest) as (rest & Hrest & ->).
    { destruct Hf as [-> | ->].
      - exists EmptyString. split; [auto|]. symmetry. apply app_empty.
      - eexists. split; [right; reflexivity|reflexivity]. }
    rewrite span_digits_whole by assumption.
    destruct d; [congruence|]. simpl.
    destruct Hrest as [-> | ->]; reflexivity.
Qed.

(** X16: [dpkg] is reported broken exactly when the directory of its updates
    exists and lists a name made of digits, a final newline allowed: so
    never for a missing or an empty directory, nor for names with another
    character. *)
Theorem dpkg_is_broken_iff (host : Host) :
  let updates := "/var/lib/dpkg/updates/" in
  (dpkg_is_broken host = true
   <-> isdir host updates = true
       /\ exists f, f ∈ listdir host updates /\ numbered f)
  /\ (isdir host updates = false -> dpkg_is_broken host = false)
  /\ (listdir host updates = [] -> dpkg_is_broken host = false).
Proof.
  intros updates. unfold dpkg_is_broken. fold updates. split; [|split].
  - destruct (isdir host updates); simpl.
    + rewrite existsb_exists. split.
      * intros (f & Hin & Hf). split; [reflexivity|]. exists f.
        split; [apply list_elem_of_In, Hin|apply match_number_numbered, Hf].
      * intros (_ & f & Hin & Hf). exists f.
        split; [apply list_elem_of_In, Hin|apply match_number_numbered, Hf].
    + split; [discriminate|]. intros [H _]. discriminate.
  - intros ->. reflexivity.
  - intros ->. destruct (isdir host updates); reflexivity.
Qed.

Lemma dpkg_is_broken_iff_example :
  let host := mkHost (fun _ => true) (fun _ => true)
                     (fun _ => ["0001"; "tmp.i"])
                     (fun _ => "") (fun _ => []) (fun _ => []) in
  isdir host "/var/lib/dpkg/updates/" = true
  /\ (exists f, f ∈ listdir host "/var/lib/dpkg/updates/" /\ numbered f)
  /\ dpkg_is_broken host = true.
Proof.
  intros host.
  assert (isdir host "/var/lib/dpkg/updates/" = true) as H1 by reflexivity.
  assert (exists f, f ∈ listdir host "/var/lib/dpkg/updates/" /\ numbered f)
    as H2.
  { exists "0001". split; [apply elem_of_cons; left; reflexivity|].
    exists "0001". split; [discriminate|]. split; [reflexivity|].
    left. reflexivity. }
  exact (conj H1 (conj H2
    (proj2 (proj1 (dpkg_is_broken_iff host)) (conj H1 H2)))).
Defined.

(** ** Words and stripped characters *)

Lemma split_whitespace_space (c : ascii) (s : string) :
  Str.isspace c = true ->
  Str.split_whitespace (String c s) = Str.split_whitespace s.
Proof. intros H. simpl. rewrite H. reflexivity. Qed.

(** A word followed by whitespace is the first of the words. *)
Lemma split_whitespace_app (w : string) (c : ascii) (s : string) :
  word w ->
  Str.isspace c = true ->
  Str.split_whitespace (w ++ String c s) = w :: Str.split_whitespace s.
Proof.
  intros [Hne Hw] Hc. induction w as [|a w IH]; [congruence|].
  simpl in Hw. apply andb_true_iff in Hw as [Ha Hw].
  apply negb_true_iff in Ha.
  change (String a w ++ String c s) with (String a (w ++ String c s)).
  destruct w as [|b w].
  - change (EmptyString ++ String c s) with (String c s).
    simpl. rewrite Ha, Hc. reflexivity.
  - specialize (IH ltac:(discriminate) Hw).
    change (String b w ++ String c s) with (String b (w ++ String c s)) in *.
    cbn [Str.split_whitespace]. rewrite Ha.
    simpl in Hw. apply andb_true_iff in Hw as [Hb _].
    apply negb_true_iff in Hb. rewrite Hb.
    cbn [Str.split_whitespace] in IH. rewrite Hb in IH. rewrite IH.
    reflexivity.
Qed.

Lemma split_whitespace_word (w : string) :
  word w -> Str.split_whitespace w = [w].
Proof.
  intros [Hne Hw]. induction w as [|a w IH]; [congruence|].
  simpl in Hw. apply andb_true_iff in Hw as [Ha Hw].
  apply negb_true_iff in Ha.
  destruct w as [|b w].
  - simpl. rewrite Ha. reflexivity.
  - specialize (IH ltac:(discriminate) Hw).
    cbn [Str.split_whitespace]. rewrite Ha.
    simpl in Hw. apply andb_true_iff in Hw as [Hb _].
    apply negb_true_iff in Hb. rewrite Hb.
    cbn [Str.split_whitespace] in IH. rewrite Hb in IH. rewrite IH.
    reflexivity.
Qed.

Lemma lstrip_chars_within (chars t s : string) :
  within chars t ->
  Str.lstrip_chars chars (t ++ s) = Str.lstrip_chars chars s.
Proof.
  unfold within. induction t as [|c t IH]; [reflexivity|]. simpl.
  rewrite andb_true_iff, negb_true_iff, negb_false_iff. intros [Hc Ht].
  change (String c t ++ s) with (String c (t ++ s)). simpl.
  rewrite Hc. apply IH, Ht.
Qed.

Lemma rstrip_chars_within (chars t : string) :
  within chars t -> Str.rstrip_chars chars t = EmptyString.
Proof.
  unfold within. induction t as [|c t IH]; [reflexivity|]. simpl.
  rewrite andb_true_iff, negb_true_iff, negb_false_iff. intros [Hc Ht].
  rewrite IH by exact Ht. rewrite Hc. reflexivity.
Qed.

Lemma rstrip_chars_without (chars v t : string) :
  without chars v ->
  within chars t ->
  Str.rstrip_chars chars (v ++ t) = v.
Proof.
  unfold without. intros Hv Ht. induction v as [|c v IH].
  - apply rstrip_chars_within, Ht.
  - simpl in Hv. apply andb_true_iff in Hv as [Hc Hv].
    apply negb_true_iff in Hc.
    change (String c v ++ t) with (String c (v ++ t)). simpl.
    rewrite IH by exact Hv. rewrite Hc. reflexivity.
Qed.

(** Stripping the characters of [chars] from both ends gives back what
    they enclose, when that has none of them. *)
Lemma strip_chars_app (chars t v t' : string) :
  within chars t ->
  without chars v ->
  within chars t' ->
  Str.strip_chars chars (t ++ v ++ t') = v.
Proof.
  intros Ht Hv Ht'. unfold Str.strip_chars.
  rewrite lstrip_chars_within by exact Ht.
  destruct v as [|c v].
  - change (EmptyString ++ t') with t'.
    replace (Str.lstrip_chars chars t') with EmptyString;
      [reflexivity|].
    rewrite <- (app_empty t'). rewrite lstrip_chars_within by exact Ht'.
    reflexivity.
  - pose proof Hv as Hv'. unfold without in Hv'. simpl in Hv'.
    apply andb_true_iff in Hv' as [Hc _]. apply negb_true_iff in Hc.
    change (String c v ++ t') with (String c (v ++ t')).
    cbn [Str.lstrip_chars]. rewrite Hc.
    change (String c (v ++ t')) with (String c v ++ t').
    apply rstrip_chars_without; assumption.
Qed.

(** ** The versions of the installed packages *)

Lemma app_assoc_string (a b c : string) : (a ++ b) ++ c = a ++ b ++ c.
Proof.
  induction a as [|x a IH]; [reflexivity|].
  change (String x ((a ++ b) ++ c) = String x (a ++ b ++ c)).
  rewrite IH. reflexivity.
Qed.

Lemma word_app (a v b : string) :
  a ≠ EmptyString ->
  Str.excludes Str.isspace a = true ->
  Str.excludes Str.isspace v = true ->
  Str.excludes Str.isspace b = true ->
  word (a ++ v ++ b).
Proof.
  intros Hne Ha Hv Hb. split.
  - destruct a; [congruence|discriminate].
  - rewrite !excludes_app, Ha, Hv, Hb. reflexivity.
Qed.

(** X17: without a changelog the version and the repository are ["?"]. With
    one, they are read off the first line: from a line such as
    [yunohost (1.2.3) testing; urgency=medium] the version between the
    parentheses and the repository before the semicolon; a line of fewer
    than three words raises [IndexError]. *)
Theorem get_ynh_package_version_reads (host : Host) (package : string) :
  let changelog := "/usr/share/doc/" ++ package ++ "/changelog.gz" in
  let cmd := "gzip -cd " ++ changelog ++ " | head -n1" in
  (path_exists host changelog = false ->
   get_ynh_package_version host package
   = Item {[ "version" := "?"; "repo" := "?" ]})
  /\ (path_exists host changelog = true ->
      (length (Str.split_whitespace (check_output host cmd)) < 3)%nat ->
      get_ynh_package_version host package = IndexError)
  /\ (forall name v r rest,
        path_exists host changelog = true ->
        word name ->
        Str.excludes Str.isspace v = true ->
        without "()" v ->
        Str.excludes Str.isspace r = true ->
        without ";" r ->
        check_output host cmd = name ++ " (" ++ v ++ ") " ++ r ++ "; " ++ rest ->
        get_ynh_package_version host package
        = Item {[ "version" := v; "repo" := r ]}).
Proof.
  intros changelog cmd. unfold get_ynh_package_version.
  fold changelog. fold cmd. split; [|split].
  - intros ->. reflexivity.
  - intros -> Hlen. simpl. unfold item.
    destruct (Str.split_whitespace (check_output host cmd))
      as [|w0 [|w1 [|w2 ws]]]; simpl in *; try reflexivity. lia.
  - intros name v r rest -> Hname Hv Hpv Hr Hpr ->. simpl.
    replace (name ++ " (" ++ v ++ ") " ++ r ++ "; " ++ rest)
      with (name ++ String " " (("(" ++ v ++ ")")
                     ++ String " " ((r ++ ";") ++ String " " rest)))
      by (rewrite !app_assoc_string; reflexivity).
    assert (word ("(" ++ v ++ ")")) as Hw1
      by (apply word_app; [discriminate|reflexivity|exact Hv|reflexivity]).
    assert (word (r ++ ";")) as Hw2.
    { split; [destruct r; discriminate|].
      rewrite excludes_app, Hr. reflexivity. }
    rewrite !split_whitespace_app by (assumption || reflexivity).
    unfold item, indexed_bind. simpl.
    rewrite (strip_chars_app "()" "(" v ")") by (reflexivity || assumption).
    change (Str.strip_chars ";" (r ++ ";"))
      with (Str.strip_chars ";" (EmptyString ++ r ++ ";")).
    rewrite (strip_chars_app ";" "" r ";") by (reflexivity || assumption).
    reflexivity.
Qed.

Lemma get_ynh_package_version_reads_example :
  let line := "yunohost (1.2.3) testing; urgency=medium" in
  let host := mkHost (fun _ => true) (fun _ => false) (fun _ => [])
                     (fun _ => line) (fun _ => []) (fun _ => []) in
  word "yunohost"
  /\ without "()" "1.2.3"
  /\ without ";" "testing"
  /\ check_output host "gzip -cd /usr/share/doc/yunohost/changelog.gz | head -n1"
     = "yunohost" ++ " (" ++ "1.2.3" ++ ") " ++ "testing" ++ "; " ++ "urgency=medium"
  /\ get_ynh_package_version host "yunohost"
     = Item {[ "version" := "1.2.3"; "repo" := "testing" ]}.
Proof.
  intros line host.
  assert (word "yunohost") as H1 by (split; [discriminate|reflexivity]).
  assert (without "()" "1.2.3") as H2 by reflexivity.
  assert (without ";" "testing") as H3 by reflexivity.
  assert (check_output host
            "gzip -cd /usr/share/doc/yunohost/changelog.gz | head -n1"
          = "yunohost" ++ " (" ++ "1.2.3" ++ ") " ++ "testing" ++ "; "
            ++ "urgency=medium") as H4 by reflexivity.
  exact (conj H1 (conj H2 (conj H3 (conj H4
    (proj2 (proj2 (get_ynh_package_version_reads host "yunohost"))
       "yunohost" "1.2.3" "testing" "urgency=medium"
       eq_refl H1 eq_refl H2 eq_refl H3 H4))))).
Defined.

Lemma packages_versions_entries (host : Host) (packages : list string)
    (items : list (string * gmap string string)) :
  packages_versions host packages = Item items ->
  map fst items = packages
  /\ Forall (fun entry => get_ynh_package_version host entry.1 = Item entry.2)
            items.
Proof.
  revert items. induction packages as [|package rest IH]; intros items; simpl.
  - intros [= <-]. split; [reflexivity|constructor].
  - destruct (get_ynh_package_version host package) as [v|] eqn:E;
      [|discriminate]. simpl.
    destruct (packages_versions host rest) as [items'|]; [|discriminate].
    simpl. intros [= <-]. destruct (IH items' eq_refl) as [Hk Hv].
    split; [simpl; f_equal; exact Hk|]. constructor; [exact E|exact Hv].
Qed.

Lemma packages_versions_error (host : Host) (packages : list string) :
  packages_versions host packages = IndexError
  <-> exists package,
        package ∈ packages
        /\ get_ynh_package_version host package = IndexError.
Proof.
  induction packages as [|package rest IH]; simpl.
  - split; [discriminate|]. intros (p & Hin & _). inversion Hin.
  - destruct (get_ynh_package_version host package) as [v|] eqn:E; simpl.
    + destruct (packages_versions host rest) as [items'|]; simpl.
      * split; [discriminate|]. intros (p & Hin & Hp).
        apply elem_of_cons in Hin as [->|Hin]; [congruence|].
        assert (Item items' = IndexError) as F
          by (apply (proj2 IH); exists p; auto).
        discriminate F.
      * split; [|reflexivity]. intros _.
        destruct (proj1 IH eq_refl) as (p & Hin & Hp).
        exists p. split; [apply elem_of_cons; auto|exact Hp].
    + split; [|reflexivity]. intros _. exists package.
      split; [apply elem_of_cons; auto|exact E].
Qed.

(** X18: when [ynh_packages_version] returns, its dictionary has one entry for
    each of the packages [yunohost], [yunohost-admin], [moulinette] and
    [ssowat], in this order, with the value of
    [get_ynh_package_version]; it raises [IndexError] exactly when that
    function does for one of them. *)
Theorem ynh_packages_version_entries (host : Host) :
  (forall items,
     ynh_packages_version host = Item items ->
     map fst items = ["yunohost"; "yunohost-admin"; "moulinette"; "ssowat"]
     /\ Forall (fun entry =>
                  get_ynh_package_version host entry.1 = Item entry.2) items)
  /\ (ynh_packages_version host = IndexError
      <-> exists package,
            package ∈ YUNOHOST_PACKAGES
            /\ get_ynh_package_version host package = IndexError).
Proof.
  split.
  - intros items. apply packages_versions_entries.
  - apply packages_versions_error.
Qed.

Lemma ynh_packages_version_entries_example :
  let host := mkHost (fun _ => true) (fun _ => false) (fun _ => [])
                     (fun _ => "yunohost (1.2.3)") (fun _ => []) (fun _ => []) in
  (exists package,
     package ∈ YUNOHOST_PACKAGES
     /\ get_ynh_package_version host package = IndexError)
  /\ ynh_packages_version host = IndexError.
Proof.
  intros host.
  assert (exists package,
            package ∈ YUNOHOST_PACKAGES
            /\ get_ynh_package_version host package = IndexError) as H.
  { exists "yunohost". split; [apply elem_of_cons; auto|reflexivity]. }
  exact (conj H (proj2 (proj2 (ynh_packages_version_entries host)) H)).
Defined.

(** ** The upgradable packages *)

Lemma split_whitespace_words (s : string) :
  Forall word (Str.split_whitespace s).
Proof.
  induction s as [|c s IH]; [constructor|].
  cbn [Str.split_whitespace]. destruct (Str.isspace c) eqn:Ec; [exact IH|].
  assert (word (String c EmptyString)) as Hc
    by (split; [discriminate|simpl; rewrite Ec; reflexivity]).
  destruct s as [|d s]; [repeat constructor; apply Hc|].
  destruct (Str.isspace d); [constructor; [exact Hc|exact IH]|].
  destruct (Str.split_whitespace (String d s)) as [|w ws];
    [repeat constructor; apply Hc|].
  inversion IH as [|? ? [_ Hw] Hws]; subst.
  constructor; [|exact Hws]. split; [discriminate|].
  simpl. rewrite Ec, Hw. reflexivity.
Qed.

(** The first piece of a split has no separator, and no character that
    the string does not have. *)
Lemma split_first (sep : ascii) (s : string) (q : ascii -> bool) :
  exists piece rest,
    Str.split sep s = piece :: rest
    /\ Str.excludes (Ascii.eqb sep) piece = true
    /\ (Str.excludes q s = true -> Str.excludes q piece = true).
Proof.
  induction s as [|c s (piece & rest & E & Hsep & Hq)]; simpl.
  - exists EmptyString, []. repeat split.
  - destruct (Ascii.eqb c sep) eqn:Ec.
    + exists EmptyString, (Str.split sep s). repeat split.
    + rewrite E. exists (String c piece), rest. split; [reflexivity|].
      simpl. rewrite Ascii.eqb_sym, Ec, Hsep. split; [reflexivity|].
      rewrite !andb_true_iff. intros [Hc Hs]. auto.
Qed.

Lemma lstrip_chars_excludes (chars s : string) (q : ascii -> bool) :
  Str.excludes q s = true -> Str.excludes q (Str.lstrip_chars chars s) = true.
Proof.
  induction s as [|c s IH]; [reflexivity|]. simpl.
  intros H. destruct (Str.mem c chars); [|exact H].
  apply andb_true_iff in H as [_ H]. apply IH, H.
Qed.

Lemma rstrip_chars_excludes (chars s : string) (q : ascii -> bool) :
  Str.excludes q s = true -> Str.excludes q (Str.rstrip_chars chars s) = true.
Proof.
  induction s as [|c s IH]; [reflexivity|]. simpl.
  rewrite andb_true_iff. intros [Hc Hs].
  destruct (Str.mem c chars && Str.is_empty (Str.rstrip_chars chars s));
    [reflexivity|].
  simpl. rewrite Hc, IH by exact Hs. reflexivity.
Qed.

Lemma upgradable_line_events (line : string) :
  exists events,
    upgradable_line line = Item events /\ Forall upgradable_event events.
Proof.
  unfold upgradable_line.
  destruct (Str.contains _ line || Str.contains _ line);
    [exists []; split; [reflexivity|constructor]|].
  pose proof (split_whitespace_words line) as Hwords.
  destruct (length (Str.split_whitespace line) =? 6)%nat eqn:Hlen; simpl.
  - apply Nat.eqb_eq in Hlen.
    destruct (Str.split_whitespace line)
      as [|w0 [|w1 [|w2 [|w3 [|w4 [|w5 [|w6 ws]]]]]]]; try discriminate.
    unfold item at 1. simpl.
    destruct (split_first "/" w0 Str.isspace) as (name & rest & -> & Hsep & Hsp).
    unfold item, indexed_bind. simpl. eexists. split; [reflexivity|].
    repeat constructor. eexists _, _, _. split; [reflexivity|].
    inversion Hwords as [|? ? [_ H0] Hwords1]; subst.
    inversion Hwords1 as [|? ? H1 Hwords2]; subst.
    inversion Hwords2 as [|? ? _ Hwords3]; subst.
    inversion Hwords3 as [|? ? _ Hwords4]; subst.
    inversion Hwords4 as [|? ? _ Hwords5]; subst.
    inversion Hwords5 as [|? ? [_ H5] _]; subst.
    repeat split; auto.
    + apply H1.
    + apply H1.
    + apply rstrip_chars_excludes, lstrip_chars_excludes, H5.
  - eexists. split; [reflexivity|]. repeat constructor.
    exists (Str.split_whitespace line). split; [|split].
    + apply Nat.eqb_neq, Hlen.
    + exact Hwords.
    + reflexivity.
Qed.

Lemma upgradable_lines_events (lines : list string) :
  exists events,
    upgradable_lines lines = Item events /\ Forall upgradable_event events.
Proof.
  induction lines as [|line rest (events' & E' & H')]; simpl.
  - exists []. split; [reflexivity|constructor].
  - destruct (upgradable_line_events line) as (events & E & H).
    rewrite E, E'. simpl. eexists. split; [reflexivity|].
    apply Forall_app. auto.
Qed.

(** X19: the generator never fails on an index, whatever [apt] prints. Each
    dictionary it yields has a name without slash or whitespace, a new
    version that is a word and a current version without whitespace; each
    warning it logs is for a line that has not six words. *)
Theorem list_upgradable_events (host : Host) :
  exists events,
    _list_upgradable_apt_packages host = Item events
    /\ Forall upgradable_event events.
Proof. apply upgradable_lines_events. Qed.

Lemma no_newline (s : string) :
  Str.excludes Str.isspace s = true ->
  Str.excludes (Ascii.eqb "010") s = true.
Proof.
  apply excludes_weaken. intros c H. apply Ascii.eqb_eq in H. subst c.
  reflexivity.
Qed.

Lemma lstrip_word (w s : string) : word w -> Str.lstrip (w ++ s) = w ++ s.
Proof.
  intros [Hne Hw]. destruct w as [|c w]; [congruence|].
  simpl in Hw. apply andb_true_iff in Hw as [Hc _].
  apply negb_true_iff in Hc.
  change (String c w ++ s) with (String c (w ++ s)). simpl.
  rewrite Hc. reflexivity.
Qed.

Lemma rstrip_last (s : string) (c : ascii) :
  Str.isspace c = false ->
  Str.rstrip (s ++ String c EmptyString) = s ++ String c EmptyString.
Proof.
  intros Hc. induction s as [|a s IH].
  - simpl. rewrite Hc. reflexivity.
  - change (String a s ++ String c EmptyString)
      with (String a (s ++ String c EmptyString)).
    cbn [Str.rstrip]. rewrite IH.
    replace (Str.is_empty (s ++ String c EmptyString)) with false
      by (destruct s; reflexivity).
    rewrite andb_false_r. reflexivity.
Qed.

(** X20: the line that the source gives as the one to expect, after the notice
    [Listing...]: the generator yields the name before the slash, the new
    version, and the current version without the closing bracket, and
    nothing else. *)
Theorem list_upgradable_format (host : Host)
    (name repo new_version arch current_version : string) :
  let line :=
    name ++ "/" ++ repo ++ " " ++ new_version ++ " " ++ arch
    ++ " [upgradable from: " ++ current_version ++ "]" in
  word name ->
  Str.excludes (Ascii.eqb "/") name = true ->
  Str.excludes Str.isspace repo = true ->
  word new_version ->
  word arch ->
  Str.excludes Str.isspace current_version = true ->
  without "]" current_version ->
  Str.contains "apt does not have a stable CLI interface" line = false ->
  Str.contains "Listing..." line = false ->
  check_output host "LC_ALL=C apt list --upgradable"
  = "Listing..." ++ String "010" (line ++ String "010" EmptyString) ->
  _list_upgradable_apt_packages host
  = Item [Yield {[ "name" := name;
                   "new_version" := new_version;
                   "current_version" := current_version ]}].
Proof.
  intros line Hname Hslash Hrepo Hnew Harch Hcur Hbracket Hn1 Hn2 Hout.
  unfold _list_upgradable_apt_packages. rewrite Hout. clear Hout.
  assert (line = name ++ "/" ++ repo ++ " " ++ new_version ++ " " ++ arch
                 ++ " [upgradable from: " ++ current_version ++ "]") as Hline
    by reflexivity.
  clearbody line.
  pose proof Hname as [_ Hname']. pose proof Hnew as [_ Hnew'].
  pose proof Harch as [_ Harch'].
  assert (Str.excludes (Ascii.eqb "010") line = true) as Hnl.
  { subst line. rewrite !excludes_app.
    rewrite (no_newline name), (no_newline repo), (no_newline new_version),
      (no_newline arch), (no_newline current_version) by assumption.
    reflexivity. }
  assert (Str.strip line = line) as Hstrip.
  { unfold Str.strip. subst line. rewrite lstrip_word by exact Hname.
    replace (name ++ "/" ++ repo ++ " " ++ new_version ++ " " ++ arch
             ++ " [upgradable from: " ++ current_version ++ "]")
      with ((name ++ "/" ++ repo ++ " " ++ new_version ++ " " ++ arch
             ++ " [upgradable from: " ++ current_version)
            ++ String "]" EmptyString)
      by (rewrite !app_assoc_string; reflexivity).
    apply rstrip_last. reflexivity. }
  assert (stripped_lines
            ("Listing..." ++ String "010" (line ++ String "010" EmptyString))
          = ["Listing..."; line]) as ->.
  { unfold stripped_lines.
    rewrite (split_app "010" "Listing...") by reflexivity.
    rewrite split_app by exact Hnl.
    cbn [Str.split List.filter]. rewrite Hstrip.
    replace (Str.is_empty line) with false
      by (subst line; destruct Hname as [Hne _]; destruct name;
          [congruence|reflexivity]).
    change (Str.strip "Listing...") with "Listing...".
    change (Str.strip EmptyString) with EmptyString.
    cbn [negb Str.is_empty map]. rewrite Hstrip. reflexivity. }
  cbn [upgradable_lines].
  assert (upgradable_line "Listing..." = Item []) as -> by reflexivity.
  assert (Str.split_whitespace line
          = [name ++ "/" ++ repo; new_version; arch; "[upgradable"; "from:";
             current_version ++ "]"]) as Hwords.
  { subst line.
    replace (name ++ "/" ++ repo ++ " " ++ new_version ++ " " ++ arch
             ++ " [upgradable from: " ++ current_version ++ "]")
      with ((name ++ "/" ++ repo)
            ++ String " " (new_version
            ++ String " " (arch
            ++ String " " ("[upgradable"
            ++ String " " ("from:"
            ++ String " " (current_version ++ "]"))))))
      by (rewrite !app_assoc_string; reflexivity).
    assert (word (name ++ "/" ++ repo)) as Hw0.
    { split; [destruct Hname as [Hne _]; destruct name;
              [congruence|discriminate]|].
      rewrite !excludes_app, Hname', Hrepo. reflexivity. }
    assert (word (current_version ++ "]")) as Hw5.
    { split; [destruct current_version; discriminate|].
      rewrite excludes_app, Hcur. reflexivity. }
    rewrite !split_whitespace_app
      by (assumption || reflexivity || (split; [discriminate|reflexivity])).
    rewrite split_whitespace_word by exact Hw5. reflexivity. }
  unfold upgradable_line. rewrite Hn1, Hn2, Hwords.
  cbn [orb length Nat.eqb negb item lookup list_lookup indexed_bind].
  replace (name ++ "/" ++ repo) with (name ++ String "/" repo) by reflexivity.
  rewrite split_app by exact Hslash.
  cbn [item lookup list_lookup indexed_bind].
  change (Str.strip_chars "]" (current_version ++ "]"))
    with (Str.strip_chars "]" (EmptyString ++ current_version ++ "]")).
  rewrite (strip_chars_app "]" "" current_version "]")
    by (reflexivity || assumption).
  reflexivity.
Qed.

Lemma list_upgradable_format_example :
  let line :=
    "yunohost" ++ "/" ++ "stable" ++ " " ++ "3.5.0.2+201903211853" ++ " "
    ++ "all" ++ " [upgradable from: " ++ "3.4.2.4+201903080053" ++ "]" in
  let host := mkHost (fun _ => true) (fun _ => false) (fun _ => [])
                (fun _ => "Listing..."
                          ++ String "010" (line ++ String "010" EmptyString))
                (fun _ => []) (fun _ => []) in
  word "yunohost"
  /\ word "3.5.0.2+201903211853"
  /\ word "all"
  /\ without "]" "3.4.2.4+201903080053"
  /\ Str.contains "apt does not have a stable CLI interface" line = false
  /\ Str.contains "Listing..." line = false
  /\ _list_upgradable_apt_packages host
     = Item [Yield {[ "name" := "yunohost";
                      "new_version" := "3.5.0.2+201903211853";
                      "current_version" := "3.4.2.4+201903080053" ]}].
Proof.
  intros line host.
  assert (word "yunohost") as H1 by (split; [discriminate|reflexivity]).
  assert (word "3.5.0.2+201903211853") as H2
    by (split; [discriminate|reflexivity]).
  assert (word "all") as H3 by (split; [discriminate|reflexivity]).
  assert (without "]" "3.4.2.4+201903080053") as H4 by reflexivity.
  assert (Str.contains "apt does not have a stable CLI interface" line = false)
    as H5 by (vm_compute; reflexivity).
  assert (Str.contains "Listing..." line = false) as H6
    by (vm_compute; reflexivity).
  exact (conj H1 (conj H2 (conj H3 (conj H4 (conj H5 (conj H6
    (list_upgradable_format host "yunohost" "stable" "3.5.0.2+201903211853"
       "all" "3.4.2.4+201903080053"
       H1 eq_refl eq_refl H2 H3 eq_refl H4 H5 H6 eq_refl))))))).
Defined.

(** ** The sources of [apt] *)

Lemma startswith_app (p s : string) : Str.startswith p (p ++ s) = true.
Proof.
  induction p as [|c p IH]; [reflexivity|].
  change (String c p ++ s) with (String c (p ++ s)). simpl.
  rewrite Ascii.eqb_refl. exact IH.
Qed.

Lemma replace_from_skip (old new p s : string) :
  Str.replace_from old new (String.length p) (p ++ s)
  = Str.replace_from old new 0 s.
Proof.
  induction p as [|c p IH]; [reflexivity|].
  change (String c p ++ s) with (String c (p ++ s)). simpl. exact IH.
Qed.

Lemma replace_absent (old new s : string) :
  Str.contains old s = false -> Str.replace_from old new 0 s = s.
Proof.
  induction s as [|c s IH]; [reflexivity|].
  cbn [Str.contains Str.replace_from]. rewrite orb_false_iff.
  intros [-> Hs]. rewrite IH by exact Hs. reflexivity.
Qed.

(** An occurrence of [old] at the start, and none after it. *)
Lemma replace_prefix (old new rest : string) :
  old ≠ EmptyString ->
  Str.contains old rest = false ->
  Str.replace old new (old ++ rest) = new ++ rest.
Proof.
  intros Hne Hrest. unfold Str.replace. destruct old as [|a old]; [congruence|].
  pose proof (startswith_app (String a old) rest) as Hp.
  change (String a old ++ rest) with (String a (old ++ rest)) in *.
  cbn [Str.replace_from]. rewrite Hp.
  replace (String.length (String a old) - 1)%nat with (String.length old)
    by (simpl; lia).
  rewrite replace_from_skip, replace_absent by exact Hrest. reflexivity.
Qed.

(** The lines of a file that are dumped: those that do not start with [#]
    and are not blank. *)
Lemma dump_file_entries (filename entry : string) (lines : list string) :
  entry ∈ dump_file filename lines
  <-> exists line,
        line ∈ lines
        /\ Str.startswith "#" line = false
        /\ Str.is_empty (Str.strip line) = false
        /\ entry = Str.replace "/etc/apt/" "" filename ++ ":" ++ Str.strip line.
Proof.
  unfold dump_file. rewrite list_elem_of_In, in_flat_map. split.
  - intros (line & Hin & He). exists line.
    split; [apply list_elem_of_In, Hin|].
    destruct (Str.startswith "#" line); [destruct He|].
    destruct (Str.is_empty (Str.strip line)); [destruct He|].
    destruct He as [<-|[]]. auto.
  - intros (line & Hin & H1 & H2 & ->). exists line.
    split; [apply list_elem_of_In, Hin|].
    rewrite H1, H2. left. reflexivity.
Qed.

(** X21: every entry of the dump comes from a line of one of the files found,
    which neither starts with [#] nor is blank, and is the name of the file
    without [/etc/apt/], a colon and the stripped line; for a file under
    [/etc/apt/] the name is the path below that directory. *)
Theorem dump_sources_list_entries (host : Host) :
  (forall entry,
     entry ∈ _dump_sources_list host
     <-> exists filename line,
           (filename ∈ glob host "/etc/apt/sources.list"
            \/ filename ∈ glob host "/etc/apt/sources.list.d/*")
           /\ line ∈ readlines host filename
           /\ Str.startswith "#" line = false
           /\ Str.is_empty (Str.strip line) = false
           /\ entry = Str.replace "/etc/apt/" "" filename
                      ++ ":" ++ Str.strip line)
  /\ (forall rest,
        Str.contains "/etc/apt/" rest = false ->
        Str.replace "/etc/apt/" "" ("/etc/apt/" ++ rest) = rest).
Proof.
  split.
  - intros entry. unfold _dump_sources_list.
    rewrite list_elem_of_In, in_flat_map. split.
    + intros (filename & Hf & He). apply list_elem_of_In in He.
      apply dump_file_entries in He as (line & Hl & H1 & H2 & ->).
      exists filename, line. split; [|auto].
      apply list_elem_of_In, elem_of_app in Hf. exact Hf.
    + intros (filename & line & Hf & Hl & H1 & H2 & ->). exists filename.
      split; [apply list_elem_of_In, elem_of_app, Hf|].
      apply list_elem_of_In, dump_file_entries. exists line. auto.
  - intros rest H. apply (replace_prefix "/etc/apt/" "" rest);
      [discriminate|exact H].
Qed.

Lemma dump_sources_list_entries_example :
  let host := mkHost (fun _ => true) (fun _ => false) (fun _ => [])
                (fun _ => "")
                (fun pattern =>
                   if String.eqb pattern "/etc/apt/sources.list"
                   then ["/etc/apt/sources.list"] else [])
                (fun _ => ["# main" ++ String "010" EmptyString;
                           String "010" EmptyString;
                           "deb http://deb.debian.org stable main"
                           ++ String "010" EmptyString]) in
  Str.contains "/etc/apt/" "sources.list" = false
  /\ Str.replace "/etc/apt/" "" ("/etc/apt/" ++ "sources.list") = "sources.list"
  /\ "sources.list:deb http://deb.debian.org stable main"
     ∈ _dump_sources_list host.
Proof.
  intros host.
  assert (Str.contains "/etc/apt/" "sources.list" = false) as H by reflexivity.
  refine (conj H (conj
    (proj2 (dump_sources_list_entries host) "sources.list" H)
    (proj2 (proj1 (dump_sources_list_entries host) _) _))).
  exists "/etc/apt/sources.list",
    ("deb http://deb.debian.org stable main" ++ String "010" EmptyString).
  split; [left; apply elem_of_cons; left; reflexivity|].
  split; [do 2 (apply elem_of_cons; right); apply elem_of_cons; left;
          reflexivity|].
  repeat split.
Defined.

(** The Debian comparison on the versions at hand, computed. *)
Ltac compute_comparisons :=
  repeat match goal with
         | |- context [Debian.version_compare ?a ?b] =>
             let v := eval vm_compute in (Debian.version_compare a b) in
             change (Debian.version_compare a b) with v
         end.

Lemma Specifier_intersection_exact_example :
  let a := mkSpecifier greater_or_equal_than "2.2" in
  let b := mkSpecifier lower_than "2.3" in
  ordered_on Debian.version_compare ["2.2.5"; version a; version b]
  /\ Specifier_contains Debian.version_compare a "2.2.5"
     && Specifier_contains Debian.version_compare b "2.2.5" = true
  /\ exists r : SpecifierSet,
      Specifier_intersection Debian.version_compare a (PSpecifier b) = Returns r
      /\ (r ≠ ∅ -> SpecifierSet_contains Debian.version_compare r "2.2.5" = true).
Proof.
  intros a b.
  assert (ordered_on Debian.version_compare ["2.2.5"; version a; version b])
    as H1.
  { split.
    - intros x y Hx Hy.
      repeat match goal with
             | H : _ ∈ _ :: _ |- _ => apply elem_of_cons in H as [->|H]
             | H : _ ∈ [] |- _ => inversion H
             end; compute_comparisons; lia.
    - intros x y z Hx Hy Hz.
      repeat match goal with
             | H : _ ∈ _ :: _ |- _ => apply elem_of_cons in H as [->|H]
             | H : _ ∈ [] |- _ => inversion H
             end; compute_comparisons; lia. }
  assert (version a ≠ version b ->
          Debian.version_compare (version a) (version b) ≠ 0) as H2
    by discriminate.
  assert (version a = version b ->
          points (relation a) = points (relation b)
          \/ relation a = equal \/ relation b = equal) as H3
    by discriminate.
  assert (Specifier_contains Debian.version_compare a "2.2.5"
          && Specifier_contains Debian.version_compare b "2.2.5" = true) as H4
    by reflexivity.
  split; [exact H1|]. split; [exact H4|].
  destruct (Specifier_intersection_exact Debian.version_compare a b "2.2.5"
              H1 H2 H3) as (r & Hr & Hc & _).
  exists r. split; [exact Hr|].
  intros Hne. rewrite (Hc Hne). exact H4.
Defined.

(** * Constraints that cannot hold together, and ties *)

(** C3 on the code: whatever the comparison answers, no version is both
    in [<<1] and in [>>1]. Yet their intersection is not the empty set: the
    branch of equal version strings keeps the first operand, for the two
    specifiers and for their singleton sets in both enumerations of the
    pool. With the Debian comparison the set returned contains the
    version 0. *)
Theorem unsatisfiable_bounds_kept :
  let a := mkSpecifier lower_than "1" in
  let b := mkSpecifier greater_than "1" in
  (forall version_compare,
     (forall item,
        Specifier_contains version_compare a item
        && Specifier_contains version_compare b item = false)
     /\ Specifier_intersection version_compare a (PSpecifier b)
        = Returns {[ a ]}
     /\ intersection_in_order version_compare [a; b] = Returns {[ a ]}
     /\ intersection_in_order version_compare [b; a] = Returns {[ b ]})
  /\ ({[ a ]} : SpecifierSet) ≠ ∅
  /\ ({[ b ]} : SpecifierSet) ≠ ∅
  /\ SpecifierSet_contains Debian.version_compare {[ a ]} "0" = true.
Proof.
  intros a b. split; [|split; [|split]].
  - intros version_compare.
    assert (Specifier_intersection version_compare a (PSpecifier b)
            = Returns {[ a ]}) as Eab
      by (apply intersection_singleton, result_same_version; done).
    assert (Specifier_intersection version_compare b (PSpecifier a)
            = Returns {[ b ]}) as Eba
      by (apply intersection_singleton, result_same_version; done).
    split; [|split; [exact Eab|split]].
    + intros item. unfold Specifier_contains. simpl. unfold_compare.
      destruct (sign_cases (version_compare item "1"))
        as [(C1 & _ & _ & _ & C5 & _)|[(C1 & _ & _ & _ & C5 & _)
                                      |(C1 & _ & _ & _ & C5 & _)]];
        rewrite C1, C5; reflexivity.
    + rewrite pair_pool. exact Eab.
    + rewrite pair_pool. exact Eba.
  - apply non_empty_singleton_L.
  - apply non_empty_singleton_L.
  - vm_compute. reflexivity.
Qed.

(** C7 on the code: [1.0] and [1.00] are different version strings that
    compare equal. The bounds [>>1.0] and [>=1.00] are both lower bounds
    and the second contains the version of the first, so the branch of
    overlapping bounds applies; the version of [self] does not compare
    above, and the intersection is [>=1.00], the looser of the two: it
    contains 1.0, which [>>1.0] does not. In the same way [<=1.0] and
    [<<1.00] intersect in [<=1.0], which contains 1.00 while [<<1.00] does
    not. *)
Theorem tie_keeps_looser_bound (version_compare : string -> string -> Z) :
  let self := mkSpecifier greater_than "1.0" in
  let other := mkSpecifier greater_or_equal_than "1.00" in
  let self' := mkSpecifier lower_or_equal_than "1.0" in
  let other' := mkSpecifier lower_than "1.00" in
  version_compare "1.0" "1.00" = 0 ->
  version_compare "1.00" "1.0" = 0 ->
  version_compare "1.0" "1.0" = 0 ->
  version_compare "1.00" "1.00" = 0 ->
  (version self ≠ version other
   /\ points (relation self) = Some Lower
   /\ points (relation other) = Some Lower
   /\ Specifier_contains version_compare other (version self) = true
   /\ Specifier_intersection version_compare self (PSpecifier other)
      = Returns {[ other ]}
   /\ Specifier_contains version_compare self "1.0" = false
   /\ SpecifierSet_contains version_compare {[ other ]} "1.0" = true)
  /\ (version self' ≠ version other'
      /\ points (relation self') = Some Upper
      /\ points (relation other') = Some Upper
      /\ Specifier_contains version_compare self' (version other') = true
      /\ Specifier_intersection version_compare self' (PSpecifier other')
         = Returns {[ self' ]}
      /\ Specifier_contains version_compare other' "1.00" = false
      /\ SpecifierSet_contains version_compare {[ self' ]} "1.00" = true).
Proof.
  intros self other self' other' H1 H2 H3 H4.
  assert (Specifier_contains version_compare other (version self) = true) as Ho
    by (unfold Specifier_contains; simpl; unfold_compare; rewrite H1;
        reflexivity).
  assert (Specifier_contains version_compare self' (version other') = true)
    as Ho'
    by (unfold Specifier_contains; simpl; unfold_compare; rewrite H2;
        reflexivity).
  split.
  - split; [discriminate|]. split; [reflexivity|]. split; [reflexivity|].
    split; [exact Ho|]. split; [|split].
    + apply intersection_singleton.
      rewrite result_overlap by (auto; discriminate).
      simpl. rewrite H1. reflexivity.
    + unfold Specifier_contains. simpl. unfold_compare. rewrite H3.
      reflexivity.
    + unfold SpecifierSet_contains. rewrite elements_singleton.
      unfold Specifier_contains. simpl. unfold_compare. rewrite H1.
      reflexivity.
  - split; [discriminate|]. split; [reflexivity|]. split; [reflexivity|].
    split; [exact Ho'|]. split; [|split].
    + apply intersection_singleton.
      rewrite result_overlap by (auto; discriminate).
      simpl. rewrite H1. reflexivity.
    + unfold Specifier_contains. simpl. unfold_compare. rewrite H4.
      reflexivity.
    + unfold SpecifierSet_contains. rewrite elements_singleton.
      unfold Specifier_contains. simpl. unfold_compare. rewrite H2.
      reflexivity.
Qed.

Lemma tie_keeps_looser_bound_example :
  Debian.version_compare "1.0" "1.00" = 0
  /\ Debian.version_compare "1.00" "1.0" = 0
  /\ Debian.version_compare "1.0" "1.0" = 0
  /\ Debian.version_compare "1.00" "1.00" = 0
  /\ Specifier_intersection Debian.version_compare
       (mkSpecifier greater_than "1.0")
       (PSpecifier (mkSpecifier greater_or_equal_than "1.00"))
     = Returns {[ mkSpecifier greater_or_equal_than "1.00" ]}
  /\ Specifier_contains Debian.version_compare
       (mkSpecifier greater_than "1.0") "1.0" = false
  /\ SpecifierSet_contains Debian.version_compare
       {[ mkSpecifier greater_or_equal_than "1.00" ]} "1.0" = true.
Proof.
  assert (Debian.version_compare "1.0" "1.00" = 0) as H1 by reflexivity.
  assert (Debian.version_compare "1.00" "1.0" = 0) as H2 by reflexivity.
  assert (Debian.version_compare "1.0" "1.0" = 0) as H3 by reflexivity.
  assert (Debian.version_compare "1.00" "1.00" = 0) as H4 by reflexivity.
  pose proof (tie_keeps_looser_bound Debian.version_compare H1 H2 H3 H4)
    as ((_ & _ & _ & _ & Hr & Hs & Hc) & _).
  exact (conj H1 (conj H2 (conj H3 (conj H4 (conj Hr (conj Hs Hc)))))).
Defined.
